(** * cs-demo-manager, web server edition: dispatch, sessions and the hybrid client

    A shallow embedding of the HTTP dispatch layer ([executeHandler] in
    [server/http-server.ts]), of the in-memory stores behind it
    ([auth/session-store.ts], [auth/user-store.ts]), of the three
    authentication handlers, and of the browser-side clients
    ([ui/api/http-client.ts], [ui/api/http-api-client.ts],
    [ui/api/hybrid-api-client.ts]); further on, of the authentication
    middleware, the upload route, the handler that opens a demo with its
    Steam URL, and the path helpers of [ui/api/csdm-api.ts].

    Server code runs in a state-and-exception monad over a [World] that holds
    the two module-level singletons ([sessionStore], [userStore]), the state of
    the database connection, and the two sources of nondeterminism the code
    reads: [Date.now()] and [Math.random()]. *)

From Stdlib Require Import ZArith String Ascii List.
From stdpp Require Import base gmap strings list fin_maps pretty.

Set Warnings "-register-all".

Open Scope string_scope.
Open Scope Z_scope.

(** ** JSON values

    Payloads, handler results and response bodies. Objects keep their keys in
    insertion order, as [JSON.stringify] does. [undefined] is not a JSON value:
    an optional value is an [option JValue]. Numbers are restricted to
    integers, which is all the modelled code produces. *)

Inductive JValue : Type :=
  | JNull
  | JBool (b : bool)
  | JNum (n : Z)
  | JStr (s : string)
  | JArr (items : list JValue)
  | JObj (fields : list (string * JValue)).

(** [obj[key]] on a parsed JSON value: the first field of that name. *)
Fixpoint assoc (key : string) (fields : list (string * JValue)) : option JValue :=
  match fields with
  | [] => None
  | (k, v) :: rest => if String.eqb k key then Some v else assoc key rest
  end.

Definition field (key : string) (v : JValue) : option JValue :=
  match v with
  | JObj fields => assoc key fields
  | _ => None
  end.

(** [Object.keys(v)] for a value whose [typeof] is ['object']. *)
Definition keys (v : JValue) : list string :=
  match v with
  | JObj fields => map fst fields
  | JArr items => map (fun i : nat => pretty i) (seq 0 (length items))
  | _ => []
  end.

(** JavaScript truthiness of an optional JSON value. *)
Definition truthy (v : option JValue) : bool :=
  match v with
  | None | Some JNull => false
  | Some (JBool b) => b
  | Some (JNum n) => negb (Z.eqb n 0)
  | Some (JStr s) => negb (String.eqb s "")
  | Some (JArr _) | Some (JObj _) => true
  end.

(** [typeof v === 'object'] ([null] included, as in JavaScript). *)
Definition typeof_object (v : option JValue) : bool :=
  match v with
  | Some JNull | Some (JArr _) | Some (JObj _) => true
  | _ => false
  end.

(** [typeof v === 'number'] *)
Definition typeof_number (v : option JValue) : bool :=
  match v with
  | Some (JNum _) => true
  | _ => false
  end.

(** ** SHA-256

    [crypto.createHash('sha256').update(s).digest('hex')] of Node.js, on the
    UTF-8 bytes of [s] (a Rocq [string] is a byte string). Words are 32-bit
    integers in [Z], reduced after every addition. *)

Module SHA256.

Definition w32 (x : Z) : Z := Z.land x 0xffffffff.

Definition add32 (x y : Z) : Z := w32 (x + y).

Definition rotr (n x : Z) : Z :=
  Z.lor (Z.shiftr x n) (w32 (Z.shiftl x (32 - n))).

Definition Ch (x y z : Z) : Z := Z.lxor (Z.land x y) (Z.land (Z.lnot x) z).

Definition Maj (x y z : Z) : Z :=
  Z.lxor (Z.lxor (Z.land x y) (Z.land x z)) (Z.land y z).

Definition Sigma0 (x : Z) : Z := Z.lxor (Z.lxor (rotr 2 x) (rotr 13 x)) (rotr 22 x).
Definition Sigma1 (x : Z) : Z := Z.lxor (Z.lxor (rotr 6 x) (rotr 11 x)) (rotr 25 x).
Definition sigma0 (x : Z) : Z := Z.lxor (Z.lxor (rotr 7 x) (rotr 18 x)) (Z.shiftr x 3).
Definition sigma1 (x : Z) : Z := Z.lxor (Z.lxor (rotr 17 x) (rotr 19 x)) (Z.shiftr x 10).

(** The constants of the standard are defined by what they are: the first
    32 bits of the fractional parts of the cube roots ([K]) and of the square
    roots ([H0]) of the first primes. *)
Definition is_prime (n : Z) : bool :=
  forallb (fun d : Z => negb (n mod d =? 0)) (map Z.of_nat (seq 2 (Z.to_nat n - 2))).

(** The 64 primes up to 311. *)
Definition primes : list Z :=
  Eval vm_compute in List.filter is_prime (map Z.of_nat (seq 2 310)).

(** The integer cube root of [n], one bit at a time below bit [b]. *)
Fixpoint cbrt_bits (b : nat) (n r : Z) : Z :=
  match b with
  | O => r
  | S b' =>
      let c := r + 2 ^ Z.of_nat b' in
      cbrt_bits b' n (if c * c * c <=? n then c else r)
  end.

Definition frac32_cbrt (p : Z) : Z := w32 (cbrt_bits 40 (p * 2 ^ 96) 0).

Definition frac32_sqrt (p : Z) : Z := w32 (Z.sqrt (p * 2 ^ 64)).

Definition K : list Z := Eval vm_compute in map frac32_cbrt primes.

Definition H0 : list Z := Eval vm_compute in map frac32_sqrt (firstn 8 primes).

Definition bytes_of (s : string) : list Z :=
  map (fun c => Z.of_N (N_of_ascii c)) (list_ascii_of_string s).

(** Big-endian bytes of [x], [n] of them. *)
Fixpoint be_bytes (n : nat) (x : Z) : list Z :=
  match n with
  | O => []
  | S n' => Z.land (Z.shiftr x (8 * Z.of_nat n')) 0xff :: be_bytes n' x
  end.

Definition pad (msg : list Z) : list Z :=
  let len := Z.of_nat (length msg) in
  msg ++ [0x80] ++ repeat 0 (Z.to_nat ((55 - len) mod 64)) ++ be_bytes 8 (8 * len).

Fixpoint be_words (fuel : nat) (bs : list Z) : list Z :=
  match fuel, bs with
  | S fuel', b0 :: b1 :: b2 :: b3 :: rest =>
      Z.lor (Z.shiftl b0 24) (Z.lor (Z.shiftl b1 16) (Z.lor (Z.shiftl b2 8) b3))
      :: be_words fuel' rest
  | _, _ => []
  end.

Definition word (ws : list Z) (i : nat) : Z := nth i ws 0.

(** The message schedule: [n] more words appended to [ws]. *)
Fixpoint schedule (n : nat) (ws : list Z) : list Z :=
  match n with
  | O => ws
  | S n' =>
      let t := length ws in
      let w := add32 (add32 (sigma1 (word ws (t - 2))) (word ws (t - 7)))
                     (add32 (sigma0 (word ws (t - 15))) (word ws (t - 16))) in
      schedule n' (ws ++ [w])
  end.

Definition round (st : list Z) (kw : Z * Z) : list Z :=
  match st with
  | [a; b; c; d; e; f; g; h] =>
      let t1 := add32 (add32 (add32 h (Sigma1 e)) (add32 (Ch e f g) (fst kw))) (snd kw) in
      let t2 := add32 (Sigma0 a) (Maj a b c) in
      [add32 t1 t2; a; b; c; add32 d t1; e; f; g]
  | _ => st
  end.

Definition compress (h : list Z) (block : list Z) : list Z :=
  let ws := schedule 48 block in
  let st := fold_left round (combine K ws) h in
  map (fun p : Z * Z => add32 (fst p) (snd p)) (combine h st).

Fixpoint blocks (fuel : nat) (ws : list Z) : list (list Z) :=
  match fuel, ws with
  | _, [] => []
  | O, _ => []
  | S fuel', _ => firstn 16 ws :: blocks fuel' (skipn 16 ws)
  end.

Definition digest (msg : list Z) : list Z :=
  let bs := pad msg in
  let ws := be_words (length bs) bs in
  fold_left compress (blocks (length ws) ws) H0.

Definition hex_digit (d : Z) : ascii :=
  ascii_of_N (Z.to_N (if d <? 10 then 48 + d else 87 + d)).

Fixpoint hex_of (n : nat) (x : Z) : string :=
  match n with
  | O => EmptyString
  | S n' => String (hex_digit (Z.land (Z.shiftr x (4 * Z.of_nat n')) 0xf)) (hex_of n' x)
  end.

Definition hex (s : string) : string :=
  fold_right (fun w acc => hex_of 8 w +:+ acc) "" (digest (bytes_of s)).

End SHA256.

(** ** The server's world and its monad *)

(** [Session] of [auth/session-store.ts]. *)
Record Session : Type := {
  sessionId : string;
  username : string;
  createdAt : Z;
  expiresAt : Z;
}.

(** [User] of [auth/user-store.ts]. *)
Record User : Type := {
  user_username : string;
  passwordHash : string;
  user_createdAt : Z;
}.

(** The state the server code reads and writes.
    - [sessions] is the [Map] held by the [sessionStore] singleton and [users]
      the one held by [userStore];
    - [databaseConnected] is what [checkDatabaseConnection] observes;
    - [clock] and [clockReads]: the [n]-th call of [Date.now()] returns
      [clock n];
    - [random] and [randomDraws]: the [n]-th evaluation of
      [Math.random().toString(36).substring(2, 15)] yields [random n]. *)
Record World : Type := {
  sessions : gmap string Session;
  users : gmap string User;
  databaseConnected : bool;
  clock : nat -> Z;
  clockReads : nat;
  random : nat -> string;
  randomDraws : nat;
}.

Definition with_sessions (f : gmap string Session -> gmap string Session) (w : World) : World :=
  {| sessions := f (sessions w); users := users w;
     databaseConnected := databaseConnected w;
     clock := clock w; clockReads := clockReads w;
     random := random w; randomDraws := randomDraws w |}.

Definition with_users (f : gmap string User -> gmap string User) (w : World) : World :=
  {| sessions := sessions w; users := f (users w);
     databaseConnected := databaseConnected w;
     clock := clock w; clockReads := clockReads w;
     random := random w; randomDraws := randomDraws w |}.

Definition tick (w : World) : World :=
  {| sessions := sessions w; users := users w;
     databaseConnected := databaseConnected w;
     clock := clock w; clockReads := S (clockReads w);
     random := random w; randomDraws := randomDraws w |}.

Definition draw (w : World) : World :=
  {| sessions := sessions w; users := users w;
     databaseConnected := databaseConnected w;
     clock := clock w; clockReads := clockReads w;
     random := random w; randomDraws := S (randomDraws w) |}.

(** What a [throw] carries: an [Error] with its message, or any other value
    (the code throws error payload objects and numeric error codes too). *)
Inductive Thrown : Type :=
  | JsError (message : string)
  | JsValue (v : JValue).

Inductive Outcome (A : Type) : Type :=
  | Returned (a : A)
  | Threw (e : Thrown).

Arguments Returned {A} a.
Arguments Threw {A} e.

(** Computations over a state [S] that either return or throw. Writes made
    before a [throw] persist, as in JavaScript. *)
Definition ST (S A : Type) : Type := S -> Outcome A * S.

#[export] Instance ST_ret {S : Type} : MRet (ST S) := fun A a s => (Returned a, s).

#[export] Instance ST_bind {S : Type} : MBind (ST S) := fun A B k m s =>
  match m s with
  | (Returned a, s') => k a s'
  | (Threw e, s') => (Threw e, s')
  end.

Definition throw {S A : Type} (e : Thrown) : ST S A := fun s => (Threw e, s).

Definition get_state {S : Type} : ST S S := fun s => (Returned s, s).

Definition modify {S : Type} (f : S -> S) : ST S unit := fun s => (Returned tt, f s).

(** [try { m } catch (error) { handler }] *)
Definition try_catch {S A : Type} (m : ST S A) (handler : Thrown -> ST S A) : ST S A :=
  fun s =>
    match m s with
    | (Returned a, s') => (Returned a, s')
    | (Threw error, s') => handler error s'
    end.

(** Computations of the server. *)
Abbreviation M := (ST World).

Definition get_world : M World := get_state.

(** [Date.now()] *)
Definition Date_now : M Z := fun w => (Returned (clock w (clockReads w)), tick w).

(** [Math.random().toString(36).substring(2, 15)] *)
Definition Math_random_base36 : M string :=
  fun w => (Returned (random w (randomDraws w)), draw w).

(** ** [auth/session-store.ts] *)

Module SessionStore.

(** 7 days *)
Definition SESSION_DURATION_MS : Z := 7 * 24 * 60 * 60 * 1000.

Definition generateSessionId : M string :=
  now ← Date_now;
  r1 ← Math_random_base36;
  r2 ← Math_random_base36;
  mret (pretty now +:+ "-" +:+ r1 +:+ "-" +:+ r2).

(** Deleting the entry under the cursor while iterating a [Map] is well
    defined in JavaScript and every entry is visited once, so the loop is a
    filter on the map. *)
Definition cleanExpiredSessions : M unit :=
  now ← Date_now;
  modify (with_sessions (filter (fun kv : string * Session => ¬ (now > expiresAt kv.2)))).

Definition createSession (username : string) : M Session :=
  sessionId ← generateSessionId;
  now ← Date_now;
  let session :=
    {| sessionId := sessionId; username := username;
       createdAt := now; expiresAt := now + SESSION_DURATION_MS |} in
  modify (with_sessions (insert sessionId session));;
  cleanExpiredSessions;;
  mret session.

Definition getSession (sessionId : string) : M (option Session) :=
  w ← get_world;
  match sessions w !! sessionId with
  | None => mret None
  | Some session =>
      now ← Date_now;
      if decide (now > expiresAt session) then
        modify (with_sessions (delete sessionId));;
        mret None
      else mret (Some session)
  end.

Definition deleteSession (sessionId : string) : M bool :=
  w ← get_world;
  modify (with_sessions (delete sessionId));;
  mret (bool_decide (is_Some (sessions w !! sessionId))).

Definition deleteUserSessions (user : string) : M unit :=
  modify (with_sessions (filter (fun kv : string * Session => ¬ (username kv.2 = user)))).

End SessionStore.

(** ** [auth/user-store.ts] *)

Module UserStore.

Definition hashPassword (password : string) : string := SHA256.hex password.

Definition createUser (username password : string) : M User :=
  let passwordHash := hashPassword password in
  now ← Date_now;
  let user :=
    {| user_username := username; passwordHash := passwordHash; user_createdAt := now |} in
  modify (with_users (insert username user));;
  mret user.

(** The body of the class constructor, run once when the module is loaded. *)
Definition constructor : M unit :=
  createUser "admin" "admin";;
  mret tt.

Definition verifyCredentials (username password : string) : M bool :=
  w ← get_world;
  match users w !! username with
  | None => mret false
  | Some user =>
      mret (String.eqb (passwordHash user) (hashPassword password))
  end.

Definition getUser (username : string) : M (option User) :=
  w ← get_world;
  mret (users w !! username).

Definition deleteUser (username : string) : M bool :=
  w ← get_world;
  modify (with_users (delete username));;
  mret (bool_decide (is_Some (users w !! username))).

(** [user] is the object stored in the map, so the assignment to
    [user.passwordHash] updates the stored entry. *)
Definition updatePassword (username newPassword : string) : M bool :=
  w ← get_world;
  match users w !! username with
  | None => mret false
  | Some user =>
      modify (with_users (insert username
        {| user_username := user_username user;
           passwordHash := hashPassword newPassword;
           user_createdAt := user_createdAt user |}));;
      mret true
  end.

End UserStore.

(** ** The authentication handlers

    Handlers are modelled at their TypeScript types. *)

Record LoginPayload : Type := {
  login_username : string;
  login_password : string;
}.

(** [success] is the literal [true] in the source type. *)
Record LoginResponse : Type := {
  response_sessionId : string;
  response_username : string;
}.

Record LogoutPayload : Type := {
  logout_sessionId : string;
}.

Record CheckAuthPayload : Type := {
  check_sessionId : string;
}.

Record CheckAuthResponse : Type := {
  authenticated : bool;
  check_username : option string;
}.

(** [!s] for a string. *)
Definition is_empty (s : string) : bool := String.eqb s "".

(** The object literal returned by [loginHandler]. *)
Definition LoginResponse_of (session : Session) : LoginResponse :=
  {| response_sessionId := sessionId session;
     response_username := username session |}.

Definition loginHandler (payload : LoginPayload) : M LoginResponse :=
  let username := login_username payload in
  let password := login_password payload in
  if is_empty username || is_empty password then
    throw (JsError "Username and password are required")
  else
    isValid ← UserStore.verifyCredentials username password;
    if negb isValid then throw (JsError "Invalid username or password")
    else
      session ← SessionStore.createSession username;
      mret (LoginResponse_of session).

Definition logoutHandler (payload : LogoutPayload) : M unit :=
  let sessionId := logout_sessionId payload in
  if is_empty sessionId then throw (JsError "Session ID is required")
  else
    SessionStore.deleteSession sessionId;;
    mret tt.

(** The object literal returned by [checkAuthHandler] for a live session. *)
Definition CheckAuthResponse_of (session : Session) : CheckAuthResponse :=
  {| authenticated := true; check_username := Some (username session) |}.

Definition checkAuthHandler (payload : CheckAuthPayload) : M CheckAuthResponse :=
  let sessionId := check_sessionId payload in
  if is_empty sessionId then
    mret {| authenticated := false; check_username := None |}
  else
    session ← SessionStore.getSession sessionId;
    match session with
    | None => mret {| authenticated := false; check_username := None |}
    | Some session => mret (CheckAuthResponse_of session)
    end.

(** The JSON these payloads and responses are on the wire. *)
Definition LoginPayload_json (p : LoginPayload) : JValue :=
  JObj [("username", JStr (login_username p)); ("password", JStr (login_password p))].

Definition LoginResponse_json (r : LoginResponse) : JValue :=
  JObj [("success", JBool true);
        ("sessionId", JStr (response_sessionId r));
        ("username", JStr (response_username r))].

Definition LogoutPayload_json (p : LogoutPayload) : JValue :=
  JObj [("sessionId", JStr (logout_sessionId p))].

Definition CheckAuthPayload_json (p : CheckAuthPayload) : JValue :=
  JObj [("sessionId", JStr (check_sessionId p))].

Definition CheckAuthResponse_json (r : CheckAuthResponse) : JValue :=
  match check_username r with
  | None => JObj [("authenticated", JBool (authenticated r))]
  | Some u => JObj [("authenticated", JBool (authenticated r)); ("username", JStr u)]
  end.

(** ** [server/http-server.ts]: the dispatcher *)

(** An entry of [rendererHandlers], as [executeHandler] calls it: with the
    payload or with no argument, returning a value or [undefined]. *)
Definition Handler : Type := option JValue -> M (option JValue).

(** What the dispatcher imports from modules that are not part of the
    excerpt: the members of the [RendererClientMessageName] enum it names,
    [ErrorCode.UnknownError], [getErrorCodeFromError], and the
    [rendererHandlers] mapping. *)
Class Deployment : Type := {
  InitializeApplication : string;
  ConnectDatabase : string;
  Login : string;
  Logout : string;
  CheckAuth : string;
  UnknownError : Z;
  getErrorCodeFromError : Thrown -> Z;
  rendererHandlers : string -> option Handler;
}.

(** A registry entry [h] is the typed handler [f] when it behaves as [f] on
    every payload of [f]'s type. *)
Definition implements {P R : Type} (encodeP : P -> JValue) (encodeR : R -> option JValue)
    (h : Handler) (f : P -> M R) : Prop :=
  forall (p : P) (w : World), h (Some (encodeP p)) w = (r ← f p; mret (encodeR r)) w.

(** [checkAuthHandler] as [executeHandler] calls it: on the JSON value the
    request carried, or with no argument at all. Destructuring [undefined]
    or [null] raises a [TypeError], whose message is the engine's
    ([typeError]); every other value has a [sessionId] property or yields
    [undefined] for it, and a [sessionId] that is not a string is no key of
    the session map. *)
Definition checkAuthHandler_call (typeError : option JValue -> string) : Handler :=
  fun payload =>
    match payload with
    | None | Some JNull => throw (JsError (typeError payload))
    | Some v =>
        match field "sessionId" v with
        | Some (JStr sessionId) =>
            r ← checkAuthHandler {| check_sessionId := sessionId |};
            mret (Some (CheckAuthResponse_json r))
        | _ =>
            mret (Some (CheckAuthResponse_json
                          {| authenticated := false; check_username := None |}))
        end
    end.

(** What [executeHandler] reads of the Express request, and the payloads the
    four routes extract from it. *)
Record Request : Type := {
  x_session_id : option string;
  body : option JValue;
  query : list (string * JValue);
}.

(** [res.status(s).json(b)]; [res.json(b)] alone has status 200. *)
Record Response : Type := {
  status : Z;
  json : JValue;
}.

(** The outcome of one dispatch. [handlerCalls] is ghost state: the arguments
    of every invocation of the registered handler during the dispatch. *)
Record Dispatched : Type := {
  response : Response;
  handlerCalls : list (option JValue);
}.

Definition replied (r : Response) (calls : list (option JValue)) : Dispatched :=
  {| response := r; handlerCalls := calls |}.

(** The uniform envelope in the words of the specification:
    [{success: true, data}] with [data] possibly absent, or
    [{success: false, error, message}]. *)
Definition uniformEnvelope (b : JValue) : Prop :=
  b = JObj [("success", JBool true)] \/
  (exists data : JValue, b = JObj [("success", JBool true); ("data", data)]) \/
  (exists (error : JValue) (message : string),
     b = JObj [("success", JBool false); ("error", error); ("message", JStr message)]).

Section Dispatcher.

Context `{D : Deployment}.

Definition checkDatabaseConnection : M bool :=
  w ← get_world;
  mret (databaseConnected w).

Definition handlersWithoutDatabase : gset string :=
  {[ InitializeApplication; ConnectDatabase; Login; Logout; CheckAuth ]}.

Definition publicHandlers : gset string :=
  {[ InitializeApplication; ConnectDatabase; Login; CheckAuth ]}.

Definition handlerNotFound (messageName : string) : Response :=
  {| status := 404;
     json := JObj [("success", JBool false);
                   ("error", JStr "Handler not found");
                   ("messageName", JStr messageName)] |}.

Definition unauthorized (message : string) : Response :=
  {| status := 401;
     json := JObj [("success", JBool false);
                   ("error", JStr "UNAUTHORIZED");
                   ("message", JStr message)] |}.

Definition databaseNotConnected : Response :=
  {| status := 503;
     json := JObj [("success", JBool false);
                   ("error", JNum UnknownError);
                   ("message", JStr "Database not connected. Please connect to database first.")] |}.

Definition succeeded (result : option JValue) : Response :=
  {| status := 200;
     json := match result with
             | None => JObj [("success", JBool true)]
             | Some data => JObj [("success", JBool true); ("data", data)]
             end |}.

(** The [catch] block. *)
Definition caught (error : Thrown) : Response :=
  {| status := 500;
     json := JObj [("success", JBool false);
                   ("error", JNum (getErrorCodeFromError error));
                   ("message", JStr match error with
                                    | JsError message => message
                                    | JsValue _ => "Unknown error"
                                    end)] |}.

(** The two gates of the [try] block; [Some r] is an early [return] after
    replying [r]. *)
Definition authenticationGate (messageName : string) (req : Request) : M (option Response) :=
  if bool_decide (messageName ∈ publicHandlers) then mret None
  else
    match x_session_id req with
    | None => mret (Some (unauthorized "Authentication required"))
    | Some sessionId =>
        if is_empty sessionId then mret (Some (unauthorized "Authentication required"))
        else
          session ← SessionStore.getSession sessionId;
          match session with
          | None => mret (Some (unauthorized "Invalid or expired session"))
          | Some _ => mret None
          end
    end.

Definition databaseGate (messageName : string) : M (option Response) :=
  if bool_decide (messageName ∈ handlersWithoutDatabase) then mret None
  else
    isConnected ← checkDatabaseConnection;
    if negb isConnected then mret (Some databaseNotConnected) else mret None.

Definition gates (messageName : string) (req : Request) : M (option Response) :=
  denied ← authenticationGate messageName req;
  match denied with
  | Some r => mret (Some r)
  | None => databaseGate messageName
  end.

(** [payload && typeof payload === 'object' && Object.keys(payload).length > 0] *)
Definition hasPayload (payload : option JValue) : bool :=
  truthy payload && typeof_object payload &&
  match payload with
  | Some v => negb (Nat.eqb (length (keys v)) 0)
  | None => false
  end.

Definition executeHandler (messageName : string) (payload : option JValue) (req : Request)
    (w : World) : Dispatched * World :=
  match rendererHandlers messageName with
  | None => (replied (handlerNotFound messageName) [], w)
  | Some handler =>
      match gates messageName req w with
      | (Threw error, w1) => (replied (caught error) [], w1)
      | (Returned (Some early), w1) => (replied early [], w1)
      | (Returned None, w1) =>
          let argument := if hasPayload payload then payload else None in
          match handler argument w1 with
          | (Returned result, w2) => (replied (succeeded result) [argument], w2)
          | (Threw error, w2) => (replied (caught error) [argument], w2)
          end
      end
  end.

Inductive Verb : Type := POST | GET | PUT | DELETE.

(** The four [/api/:messageName] routes. *)
Definition route (verb : Verb) (messageName : string) (req : Request)
    (w : World) : Dispatched * World :=
  match verb with
  | POST | PUT => executeHandler messageName (body req) req w
  | GET =>
      let payload := if negb (Nat.eqb (length (query req)) 0) then Some (JObj (query req)) else None in
      executeHandler messageName payload req w
  | DELETE =>
      let payload := if negb (Nat.eqb (length (query req)) 0) then Some (JObj (query req)) else body req in
      executeHandler messageName payload req w
  end.

End Dispatcher.

(** ** The browser side: [ui/api] *)

(** One call of [fetch]: the URL, the method, the headers and the value whose
    [JSON.stringify] is the body. *)
Record FetchCall : Type := {
  url : string;
  method : string;
  headers : list (string * string);
  fetch_body : option JValue;
}.

(** What [fetch] settles to. A rejection carries the message of the [Error]
    it rejects with. [parsed] is what [response.json()] settles to: a value,
    or the message of the [SyntaxError]. *)
Inductive FetchResult : Type :=
  | FetchRejected (message : string)
  | FetchResponse (ok : bool) (status : Z) (statusText : string) (parsed : string + JValue).

(** The state of the page: the [httpClient] singleton, the calls of [fetch]
    made so far (oldest first), and the network, which answers the [n]-th
    call. *)
Record Browser : Type := {
  baseUrl : string;
  client_sessionId : option string;
  fetched : list FetchCall;
  network : nat -> FetchCall -> FetchResult;
}.

(** Computations of the page. *)
Abbreviation C := (ST Browser).

Definition fetch (call : FetchCall) : C FetchResult :=
  fun b =>
    (Returned (network b (length (fetched b)) call),
     {| baseUrl := baseUrl b; client_sessionId := client_sessionId b;
        fetched := (fetched b ++ [call])%list; network := network b |}).

(** [ApiResult<T>]: [{success: true, data}] or [{success: false, error, message}]. *)
Inductive ApiResult : Type :=
  | ApiResponse (data : JValue)
  | ApiErrorResponse (error : JValue) (message : JValue).

(** The message argument of [send]: [payload] is [None] when the message has
    no ['payload'] property. *)
Record SendableMessage : Type := {
  name : string;
  payload : option JValue;
}.

(** [a || b] *)
Definition or_else (a : option JValue) (b : JValue) : JValue :=
  match a with
  | Some v => if truthy a then v else b
  | None => b
  end.

(** [v.key], which throws a [TypeError] on [null]. The text of the message
    is the engine's. *)
Definition property (key : string) (v : JValue) : C (option JValue) :=
  match v with
  | JNull => throw (JsError ("Cannot read properties of null (reading '" +:+ key +:+ "')"))
  | _ => mret (field key v)
  end.

Section Client.

Context `{D : Deployment}.

Definition apiFailure (message : string) : ApiResult :=
  ApiErrorResponse (JNum UnknownError) (JStr message).

(** [HttpClient.request]. The [catch] block turns every fault into an
    [ApiErrorResponse]; everything the modelled [try] block can throw is an
    [Error], whose message it reports. *)
Definition request (endpoint : string) (verb : string) (content : option JValue) : C ApiResult :=
  try_catch
    (b ← get_state;
     let url := baseUrl b +:+ endpoint in
     let headers := [("Content-Type", "application/json")] in
     let headers :=
       match client_sessionId b with
       | Some sessionId =>
           if is_empty sessionId then headers else (headers ++ [("X-Session-Id", sessionId)])%list
       | None => headers
       end in
     response ← fetch {| url := url; method := verb; headers := headers; fetch_body := content |};
     match response with
     | FetchRejected message => throw (JsError message)
     | FetchResponse false status statusText parsed =>
         let errorData := match parsed with inr v => v | inl _ => JObj [] end in
         error ← property "error" errorData;
         message ← property "message" errorData;
         mret (ApiErrorResponse
                 (or_else error (JNum UnknownError))
                 (or_else message (JStr ("HTTP " +:+ pretty status +:+ ": " +:+ statusText))))
     | FetchResponse true _ _ parsed =>
         match parsed with
         | inl message => throw (JsError message)
         | inr data =>
             inner ← property "data" data;
             mret (ApiResponse match inner with Some v => v | None => data end)
         end
     end)
    (fun error =>
       mret (apiFailure match error with
                        | JsError message => message
                        | JsValue _ => "Unknown error"
                        end)).

Definition post (endpoint : string) (content : option JValue) : C ApiResult :=
  request endpoint "POST" content.

Definition callHandler (messageName : string) (content : option JValue) : C ApiResult :=
  post ("/api/" +:+ messageName) content.

(** [HttpApiClient.send] *)
Definition HttpApiClient_send (message : SendableMessage) : C JValue :=
  try_catch
    (result ← callHandler (name message) (payload message);
     match result with
     | ApiResponse data => mret data
     | ApiErrorResponse error _ =>
         let errorCode := if typeof_number (Some error) then error else JNum UnknownError in
         throw (JsValue errorCode)
     end)
    (fun error =>
       match error with
       | JsValue (JNum _) => throw error
       | _ => throw (JsValue (JNum UnknownError))
       end).

(** [HybridApiClient.send]: [return this.httpClient.send(message)]. The
    WebSocket client the class also holds is used by [on], [off] and
    [removeAllEventListeners] only. *)
Definition HybridApiClient_send (message : SendableMessage) : C JValue :=
  HttpApiClient_send message.

(** A call failed when [fetch] rejected, the status was not a 2xx one, or
    the body of a 2xx reply was not a JSON value the client can read. *)
Definition failed (r : FetchResult) : bool :=
  match r with
  | FetchRejected _ => true
  | FetchResponse false _ _ _ => true
  | FetchResponse true _ _ (inl _) => true
  | FetchResponse true _ _ (inr JNull) => true
  | FetchResponse true _ _ (inr _) => false
  end.

End Client.

(** ** A sample deployment

    Concrete values for what the excerpt leaves out, on which the statements
    below are exercised: enum members, an error code, a registry with the
    three authentication handlers, a bootstrap handler, a handler that
    connects the database, and ["echo"], an ordinary operation that returns
    its payload. *)

(** A registry entry for a typed handler. A payload that is not of the
    handler's type is outside the model; the entry throws on it. *)
Definition typed {P R : Type} (decode : JValue -> option P) (encode : R -> option JValue)
    (f : P -> M R) : Handler :=
  fun payload =>
    match payload ≫= decode with
    | Some p => r ← f p; mret (encode r)
    | None => throw (JsError "Invalid payload")
    end.

Definition LoginPayload_of_json (v : JValue) : option LoginPayload :=
  match v with
  | JObj [("username", JStr u); ("password", JStr p)] =>
      Some {| login_username := u; login_password := p |}
  | _ => None
  end.

Definition LogoutPayload_of_json (v : JValue) : option LogoutPayload :=
  match v with
  | JObj [("sessionId", JStr s)] => Some {| logout_sessionId := s |}
  | _ => None
  end.

(** The message of V8 for a destructuring of [undefined] or [null]. *)
Definition destructuringError (payload : option JValue) : string :=
  "Cannot destructure property 'sessionId' of 'payload' as it is "
    +:+ match payload with None => "undefined" | Some _ => "null" end +:+ ".".

Definition connectDatabase : Handler :=
  fun _ w =>
    (Returned None,
     {| sessions := sessions w; users := users w; databaseConnected := true;
        clock := clock w; clockReads := clockReads w;
        random := random w; randomDraws := randomDraws w |}).

Definition echo : Handler := fun payload => mret payload.

Definition sampleHandlers (messageName : string) : option Handler :=
  if String.eqb messageName "initialize-application" then Some (fun _ => mret (Some (JObj [])))
  else if String.eqb messageName "connect-database" then Some connectDatabase
  else if String.eqb messageName "login" then
    Some (typed LoginPayload_of_json (fun r => Some (LoginResponse_json r)) loginHandler)
  else if String.eqb messageName "logout" then
    Some (typed LogoutPayload_of_json (fun _ : unit => None) logoutHandler)
  else if String.eqb messageName "check-auth" then
    Some (checkAuthHandler_call destructuringError)
  else if String.eqb messageName "echo" then Some echo
  else None.

Definition sample : Deployment :=
  {| InitializeApplication := "initialize-application";
     ConnectDatabase := "connect-database";
     Login := "login";
     Logout := "logout";
     CheckAuth := "check-auth";
     UnknownError := 1;
     getErrorCodeFromError := fun _ => 1;
     rendererHandlers := sampleHandlers |}.

(** The world before any module is loaded, and the world once [userStore]
    has been constructed. *)
Definition emptyWorld (clock : nat -> Z) (random : nat -> string) : World :=
  {| sessions := ∅; users := ∅; databaseConnected := false;
     clock := clock; clockReads := 0; random := random; randomDraws := 0 |}.

Definition startup (clock : nat -> Z) (random : nat -> string) : World :=
  (UserStore.constructor (emptyWorld clock random)).2.

(** A clock that advances one second per reading, and a random source. *)
Definition sampleClock (n : nat) : Z := 1700000000000 + 1000 * Z.of_nat n.

Definition sampleRandom (n : nat) : string := "k3j9x" +:+ pretty n.

Definition sampleWorld : World := startup sampleClock sampleRandom.

(** A request without the [X-Session-Id] header, and one with it. *)
Definition anonymous (content : option JValue) : Request :=
  {| x_session_id := None; body := content; query := [] |}.

Definition withSession (sessionId : string) (content : option JValue) : Request :=
  {| x_session_id := Some sessionId; body := content; query := [] |}.

(** The sample world after a session has been created for ["admin"], the
    session, and its token. *)
Definition loggedIn : World := (SessionStore.createSession "admin" sampleWorld).2.

Definition sampleSession : Session :=
  {| sessionId := "1700000001000-k3j9x0-k3j9x1"; username := "admin";
     createdAt := 1700000002000; expiresAt := 1700604802000 |}.

Definition sampleToken : string := sessionId sampleSession.

(** A page without a stored session, on a network that answers every call
    as the server answers a protected operation called without a session. *)
Definition sampleBrowser : Browser :=
  {| baseUrl := ""; client_sessionId := None; fetched := [];
     network := fun _ _ =>
       FetchResponse false 401 "Unauthorized"
         (inr (JObj [("success", JBool false); ("error", JStr "UNAUTHORIZED");
                     ("message", JStr "Authentication required")])) |}.

(** The clock never runs backwards. *)
Definition clock_monotone (w : World) : Prop :=
  forall i j : nat, (i <= j)%nat -> clock w i <= clock w j.

(** ** Further definitions for the properties of the stores *)

(** Every session is stored under its own id. *)
Definition keyed (w : World) : Prop :=
  forall (token : string) (s : Session), sessions w !! token = Some s -> sessionId s = token.

(** No character of [s] is a dash. *)
Fixpoint dashless (s : string) : bool :=
  match s with
  | EmptyString => true
  | String c rest => negb (Ascii.eqb c "-") && dashless rest
  end.

(** ** [auth/auth-middleware.ts] *)

(** [req.session] as the middleware sets it. *)
Record RequestSession : Type := {
  attached_sessionId : string;
  attached_username : string;
}.

Definition RequestSession_of (session : Session) : RequestSession :=
  {| attached_sessionId := sessionId session; attached_username := username session |}.

(** What a middleware does with a request: it replies, or it calls [next()],
    having attached a session to the request or not. *)
Inductive Middleware : Type :=
  | Reply (r : Response)
  | Next (attached : option RequestSession).

Definition requireAuth (req : Request) : M Middleware :=
  match x_session_id req with
  | None => mret (Reply (unauthorized "Authentication required"))
  | Some sessionId =>
      if is_empty sessionId then mret (Reply (unauthorized "Authentication required"))
      else
        session ← SessionStore.getSession sessionId;
        match session with
        | None => mret (Reply (unauthorized "Invalid or expired session"))
        | Some session => mret (Next (Some (RequestSession_of session)))
        end
  end.

Definition optionalAuth (req : Request) : M Middleware :=
  match x_session_id req with
  | None => mret (Next None)
  | Some sessionId =>
      if is_empty sessionId then mret (Next None)
      else
        session ← SessionStore.getSession sessionId;
        match session with
        | None => mret (Next None)
        | Some session => mret (Next (Some (RequestSession_of session)))
        end
  end.

(** The sample world a long time after the login: the session of ["admin"]
    is still stored and has expired. *)
Definition staleWorld : World :=
  {| sessions := sessions loggedIn; users := users loggedIn; databaseConnected := false;
     clock := fun _ => 1800000000000; clockReads := 0;
     random := sampleRandom; randomDraws := 0 |}.

(** The sample world after the login, with the database connected. *)
Definition readyWorld : World := (connectDatabase None loggedIn).2.

(** ** [server/http-server.ts]: the upload route *)

(** [s.includes(sub)] *)
Fixpoint includes (sub s : string) : bool :=
  String.prefix sub s ||
  match s with
  | EmptyString => false
  | String _ rest => includes sub rest
  end.

(** [v.includes(sub)] for a truthy JSON value [v]: substring search on a
    string, membership in an array, and a [TypeError] on anything else, which
    has no [includes] method. *)
Definition includes_of (variable : string) (v : JValue) (sub : string) : M bool :=
  match v with
  | JStr s => mret (includes sub s)
  | JArr items =>
      mret (existsb (fun item => match item with
                                 | JStr s => String.eqb s sub
                                 | _ => false
                                 end) items)
  | _ => throw (JsError (variable +:+ ".includes is not a function"))
  end.

(** [filePath.includes('..') || filePath.includes('//')] *)
Definition dangerous (filePath : JValue) : M bool :=
  dotdot ← includes_of "filePath" filePath "..";
  if dotdot : bool then mret true else includes_of "filePath" filePath "//".

Definition badRequest `{D : Deployment} (message : string) : Response :=
  {| status := 400;
     json := JObj [("success", JBool false); ("error", JNum UnknownError);
                   ("message", JStr message)] |}.

Definition serverError `{D : Deployment} (message : string) : Response :=
  {| status := 500;
     json := JObj [("success", JBool false); ("error", JNum UnknownError);
                   ("message", JStr message)] |}.

(** [POST /api/upload/base64]. [WriteBase64File] is the member of the
    [RendererClientMessageName] enum of that name; [body] is the parsed JSON
    body, an object or an array. The route reads no header of the request. *)
Definition uploadBase64 `{D : Deployment} (WriteBase64File : string) (body : JValue)
    (w : World) : Dispatched * World :=
  let filePath := field "filePath" body in
  let data := field "data" body in
  match filePath, data with
  | Some filePathValue, Some dataValue =>
      if negb (truthy filePath) || negb (truthy data) then
        (replied (badRequest "filePath and data are required") [], w)
      else
        match dangerous filePathValue w with
        | (Threw error, w1) => (replied (caught error) [], w1)
        | (Returned true, w1) => (replied (badRequest "Invalid file path") [], w1)
        | (Returned false, w1) =>
            match rendererHandlers WriteBase64File with
            | None => (replied (serverError "WriteBase64File handler not found") [], w1)
            | Some handler =>
                let argument := Some (JObj [("filePath", filePathValue); ("data", dataValue)]) in
                match handler argument w1 with
                | (Returned _, w2) => (replied (succeeded None) [argument], w2)
                | (Threw error, w2) => (replied (caught error) [argument], w2)
                end
            end
        end
  | _, _ => (replied (badRequest "filePath and data are required") [], w)
  end.

(** A deployment like the sample one, with a handler for uploads. *)
Definition writeBase64File : Handler := fun _ => mret None.

Definition sampleWithUploads : Deployment :=
  {| InitializeApplication := "initialize-application";
     ConnectDatabase := "connect-database";
     Login := "login";
     Logout := "logout";
     CheckAuth := "check-auth";
     UnknownError := 1;
     getErrorCodeFromError := fun _ => 1;
     rendererHandlers := fun messageName =>
       if String.eqb messageName "write-base64-file" then Some writeBase64File
       else sampleHandlers messageName |}.

(** ** [ui/api/http-client.ts]: the session id of the page *)

(** The page with its [localStorage]. *)
Record Page : Type := {
  browser : Browser;
  localStorage : gmap string string;
}.

(** [new HttpClient(baseUrl)], as run when the module is loaded. *)
Definition HttpClient_new (url : string) (net : nat -> FetchCall -> FetchResult)
    (log : list FetchCall) (storage : gmap string string) : Page :=
  {| browser := {| baseUrl := url; client_sessionId := storage !! "csdm-session-id";
                   fetched := log; network := net |};
     localStorage := storage |}.

Definition setSessionId (sessionId : option string) (p : Page) : Page :=
  {| browser := {| baseUrl := baseUrl (browser p); client_sessionId := sessionId;
                   fetched := fetched (browser p); network := network (browser p) |};
     localStorage :=
       match sessionId with
       | Some s =>
           if is_empty s then delete "csdm-session-id" (localStorage p)
           else <["csdm-session-id" := s]> (localStorage p)
       | None => delete "csdm-session-id" (localStorage p)
       end |}.

Definition getSessionId (p : Page) : option string := client_sessionId (browser p).

(** [window.location.reload()]: the module is loaded again, on the same
    storage and the same network. *)
Definition reload (p : Page) : Page :=
  HttpClient_new (baseUrl (browser p)) (network (browser p)) (fetched (browser p))
    (localStorage p).

(** The headers [request] sends for a session id. *)
Definition headers_for (sessionId : option string) : list (string * string) :=
  ("Content-Type", "application/json") ::
  match sessionId with
  | Some s => if is_empty s then [] else [("X-Session-Id", s)]
  | None => []
  end.

(** What [fetch] resolves to for a reply of the server: [ok] for a status
    from 200 to 299, and the body parsed back. [statusText] is the reason
    phrase the HTTP stack adds. *)
Definition over_the_wire (statusText : string) (r : Response) : FetchResult :=
  FetchResponse ((200 <=? status r) && (status r <? 300)) (status r) statusText (inr (json r)).

(** ** [ui/api/http-api-client.ts]: the listeners *)

(** A listener is a function, compared by identity: a number stands for it.
    [Listeners] is the [Map] from event names to arrays of listeners. *)
Definition on (name : string) (listener : nat) (listeners : gmap string (list nat))
    : gmap string (list nat) :=
  match listeners !! name with
  | None => <[name := [listener]]> listeners
  | Some registered => <[name := (registered ++ [listener])%list]> listeners
  end.

Definition off (name : string) (listener : nat) (listeners : gmap string (list nat))
    : gmap string (list nat) :=
  match listeners !! name with
  | None => listeners
  | Some registered =>
      <[name := List.filter (fun cb => negb (Nat.eqb cb listener)) registered]> listeners
  end.

Definition removeAllEventListeners (name : string) (listeners : gmap string (list nat))
    : gmap string (list nat) :=
  <[name := []]> listeners.

(** A page whose network carries the reply of the sample server to ["echo"]
    called without a session. *)
Definition wiredBrowser : Browser :=
  {| baseUrl := ""; client_sessionId := None; fetched := [];
     network := fun _ _ =>
       over_the_wire "Unauthorized"
         (response (route (D := sample) POST "echo" (anonymous None) sampleWorld).1) |}.

(** A browser whose network answers with the reply of the sample server to
    a check-auth request that has no body. *)
Definition failingBrowser : Browser :=
  {| baseUrl := ""; client_sessionId := None; fetched := [];
     network := fun _ _ =>
       over_the_wire "Internal Server Error"
         (response (route (D := sample) POST "check-auth" (anonymous None) sampleWorld).1) |}.

(** ** String primitives of JavaScript

    On byte strings. The code below looks for ASCII characters only, which
    are single bytes, and no byte of a longer UTF-8 sequence is one. *)

(** The double quote character. *)
Definition double_quote : ascii := "034"%char.

(** [s.replace(/c/g, by)] for a character [c] *)
Fixpoint replace_all (c : ascii) (by_ : string) (s : string) : string :=
  match s with
  | EmptyString => EmptyString
  | String d rest =>
      (if Ascii.eqb d c then by_ else String d EmptyString) +:+ replace_all c by_ rest
  end.

(** [s.lastIndexOf(c)] for a character [c]: the index of its last
    occurrence, or -1. *)
Fixpoint lastIndexOf (c : ascii) (s : string) : Z :=
  match s with
  | EmptyString => -1
  | String d rest =>
      let later := lastIndexOf c rest in
      if 0 <=? later then later + 1 else if Ascii.eqb d c then 0 else -1
  end.

(** [s.substring(start, end)]: both indices are clamped to the string and
    swapped when out of order. *)
Definition js_substring (s : string) (start end_ : Z) : string :=
  let len := Z.of_nat (String.length s) in
  let a := Z.max 0 (Z.min start len) in
  let b := Z.max 0 (Z.min end_ len) in
  String.substring (Z.to_nat (Z.min a b)) (Z.to_nat (Z.max a b - Z.min a b)) s.

(** [s.substring(start)] *)
Definition js_substring_from (s : string) (start : Z) : string :=
  js_substring s start (Z.of_nat (String.length s)).

(** [a || b] for numbers. *)
Definition or_number (a b : Z) : Z := if a =? 0 then b else a.

(** ** [node/counter-strike/launcher/build-steam-demo-url.ts] *)

(** [win32] is [process.platform === 'win32']; [startTick] is restricted to
    integers, which JavaScript prints in decimal as [pretty] does (below
    10^21). *)
Definition buildSteamDemoUrl (win32 : bool) (demoPath : string) (startTick : option Z) : string :=
  let baseUrl := "steam://run/730//" in
  let normalizedPath := if win32 then replace_all "/" "\" demoPath else demoPath in
  let escapedPath := replace_all double_quote (String "\" (String double_quote EmptyString))
                                 normalizedPath in
  let playdemo := "+playdemo " +:+ String double_quote EmptyString +:+ escapedPath
                  +:+ String double_quote EmptyString in
  let playdemo :=
    match startTick with
    | Some tick => if 0 <? tick then playdemo +:+ " +demo_gototick " +:+ pretty tick else playdemo
    | None => playdemo
    end in
  baseUrl +:+ playdemo.

Definition buildSteamMatchUrl (sharecode : string) : string :=
  let baseUrl := "steam://rungameid/730//" in
  baseUrl +:+ "+playdemo_match_sharecode " +:+ String double_quote EmptyString +:+ sharecode
  +:+ String double_quote EmptyString.

(** ** [ui/api/csdm-api.ts]: paths *)

Definition getPathDirectoryName (path : string) : string :=
  js_substring path 0 (or_number (lastIndexOf "/" path) (lastIndexOf "\" path)).

Definition getPathBasename (path : string) : string :=
  js_substring_from path (or_number (lastIndexOf "/" path + 1) (lastIndexOf "\" path + 1)).


(** ** [server/handlers/renderer-process/counter-strike/watch-demo-handler.ts] *)

Record WatchDemoPayload : Type := {
  demoPath : string;
  focusSteamId : option string;
  startTick : option Z;
  additionalArguments : option (list string);
  useSteamUrl : option bool;
}.

(** A row of [fetchMatchPlayersSlots]. *)
Record PlayerSlot : Type := {
  steamId : string;
  slot : Z;
}.

(** The calls made on a [JSONActionsFileGenerator] before [write()]. The
    class is not part of the excerpt: a generator stands for the list of
    calls made on it, which [write()] receives. *)
Inductive JsonAction : Type :=
  | EnablePlayerVoices
  | DisablePlayerVoices
  | AddSkipAhead (tick toTick : Z)
  | GenerateVoiceAliases (players : list PlayerSlot)
  | AddSpecPlayer (tick slot : Z).

(** What the handler imports from modules that are not part of the excerpt.
    [CSGO] is [Game.CSGO]; [playerVoicesEnabled] is
    [(await getSettings()).playback.playerVoicesEnabled]; [writeJsonActions]
    is [write()] on a generator made for a demo and a game; [win32] is
    [process.platform === 'win32']. *)
Class WatchDemoDeps : Type := {
  Game : Type;
  CSGO : Game;
  Game_eq_dec :: EqDecision Game;
  detectDemoGame : string -> M Game;
  playerVoicesEnabled : M bool;
  installCounterStrikeServerPlugin : Game -> M unit;
  deleteJsonActionsFile : string -> M unit;
  getDemoChecksumFromDemoPath : string -> M string;
  fetchMatchPlayersSlots : string -> M (list PlayerSlot);
  writeJsonActions : string -> Game -> list JsonAction -> M unit;
  onGameStart : M unit;
  watchDemo : WatchDemoPayload -> M unit;
  handleWatchDemoError : Thrown -> string -> string -> M JValue;
  win32 : bool;
}.

(** Truthiness of an optional number and of an optional string. *)
Definition truthy_number (n : option Z) : bool :=
  match n with
  | Some n => negb (n =? 0)
  | None => false
  end.

Definition truthy_string (s : option string) : bool :=
  match s with
  | Some s => negb (is_empty s)
  | None => false
  end.

Section WatchDemo.

Context `{W : WatchDemoDeps}.

Definition generateJsonActionsFileForSteam (path : string) (game : Game) (voices : bool)
    (tick : option Z) (focus : option string) : M unit :=
  let json := [if voices then EnablePlayerVoices else DisablePlayerVoices] in
  let json :=
    match tick with
    | Some t => if truthy_number tick then (json ++ [AddSkipAhead 0 t])%list else json
    | None => json
    end in
  json ←
    (if truthy_string focus || negb (bool_decide (game = CSGO)) then
       checksum ← getDemoChecksumFromDemoPath path;
       players ← fetchMatchPlayersSlots checksum;
       let json :=
         if negb (bool_decide (game = CSGO)) then (json ++ [GenerateVoiceAliases players])%list
         else json in
       match focus with
       | Some wanted =>
           if truthy_string focus then
             match List.find (fun player => String.eqb (steamId player) wanted) players with
             | Some player =>
                 mret (json ++ [AddSpecPlayer (default 0 tick) (slot player)])%list
             | None => mret json
             end
           else mret json
       | None => mret json
       end
     else mret json);
  writeJsonActions path game json.

(** The branch of the [try] block taken when [useSteamUrl] is true. *)
Definition watchViaSteam (payload : WatchDemoPayload) : M (option JValue) :=
  game ← detectDemoGame (demoPath payload);
  voices ← playerVoicesEnabled;
  installCounterStrikeServerPlugin game;;
  deleteJsonActionsFile (demoPath payload);;
  generateJsonActionsFileForSteam (demoPath payload) game voices (startTick payload)
    (focusSteamId payload);;
  let steamUrl := buildSteamDemoUrl win32 (demoPath payload) (startTick payload) in
  onGameStart;;
  mret (Some (JObj [("steamUrl", JStr steamUrl); ("success", JBool true)])).

(** [undefined] is the result of the branch that launches the game. *)
Definition watchDemoHandler (payload : WatchDemoPayload) : M (option JValue) :=
  try_catch
    (if default true (useSteamUrl payload) then watchViaSteam payload
     else
       watchDemo payload;;
       mret None)
    (fun error =>
       if default false (useSteamUrl payload) then
         errorPayload ← handleWatchDemoError error (demoPath payload) "Error watching demo";
         throw (JsValue errorPayload)
       else
         errorPayload ← handleWatchDemoError error (demoPath payload) "Error watching demo";
         mret (Some errorPayload)).

End WatchDemo.

(** Dependencies for which the game of a demo cannot be detected. *)
Definition brokenDemo : WatchDemoDeps :=
  {| Game := bool; CSGO := true;
     detectDemoGame := fun _ => throw (JsError "Unsupported demo");
     playerVoicesEnabled := mret true;
     installCounterStrikeServerPlugin := fun _ => mret tt;
     deleteJsonActionsFile := fun _ => mret tt;
     getDemoChecksumFromDemoPath := fun _ => mret "checksum";
     fetchMatchPlayersSlots := fun _ => mret [];
     writeJsonActions := fun _ _ _ => mret tt;
     onGameStart := mret tt;
     watchDemo := fun _ => mret tt;
     handleWatchDemoError := fun _ path message =>
       mret (JObj [("demoPath", JStr path); ("message", JStr message)]);
     win32 := false |}.



(** ** The error kinds of the specification

    The specification's closed enumeration of failure kinds, and the kind
    that the [error] field of a failure body stands for: the two strings the
    dispatcher writes, [ErrorCode.UnknownError], or another member of
    [ErrorCode], which is a code specific to the handler that failed. No
    value the dispatcher writes stands for a subsystem that is not ready. *)
Inductive ErrorKind : Type :=
  | KindNotFound
  | KindUnauthorized
  | KindSubsystemUnavailable
  | KindDomainError (code : Z)
  | KindUnknownError.

Section ErrorKinds.

Context `{D : Deployment}.

Definition errorKind (body : JValue) : option ErrorKind :=
  match field "error" body with
  | Some (JStr name) =>
      if String.eqb name "Handler not found" then Some KindNotFound
      else if String.eqb name "UNAUTHORIZED" then Some KindUnauthorized
      else None
  | Some (JNum code) =>
      if code =? UnknownError then Some KindUnknownError else Some (KindDomainError code)
  | _ => None
  end.


End ErrorKinds.

(** * Properties *)

(** ** SHA-256 test vectors *)

Example sha256_constants :
  length SHA256.primes = 64%nat /\
  nth 0 SHA256.K 0 = 0x428a2f98 /\ nth 63 SHA256.K 0 = 0xc67178f2 /\
  nth 0 SHA256.H0 0 = 0x6a09e667 /\ nth 7 SHA256.H0 0 = 0x5be0cd19.
Proof. vm_compute. repeat split; reflexivity. Qed.

Example sha256_empty :
  SHA256.hex "" = "e3b0c44298fc1c149afbf4c8996fb92427ae41e4649b934ca495991b7852b855".
Proof. vm_compute. reflexivity. Qed.

Example sha256_abc :
  SHA256.hex "abc" = "ba7816bf8f01cfea414140de5dae2223b00361a396177a9cb410ff61f20015ad".
Proof. vm_compute. reflexivity. Qed.

Example sha256_admin :
  SHA256.hex "admin" = "8c6976e5b5410415bde908bd4dee15dfb167a9c873fc4bb8a81f6f2ab448a918".
Proof. vm_compute. reflexivity. Qed.

(** Unfolds the monad's plumbing, leaving the steps of the computation. *)
Ltac run :=
  cbv beta iota zeta delta
    [mbind mret ST_bind ST_ret throw get_state get_world modify try_catch
     Date_now Math_random_base36 fst snd].

(** ** The session store *)

Section SessionStoreFacts.

Import SessionStore.

(** What one call of [createSession] does to the world. *)
Lemma createSession_run (u : string) (w : World) :
  exists (s : Session) (w1 : World),
    createSession u w = (Returned s, w1) /\
    sessionId s = pretty (clock w (clockReads w)) +:+ "-" +:+ random w (randomDraws w)
                    +:+ "-" +:+ random w (S (randomDraws w)) /\
    username s = u /\
    createdAt s = clock w (S (clockReads w)) /\
    expiresAt s = clock w (S (clockReads w)) + SESSION_DURATION_MS /\
    sessions w1 =
      filter (fun kv : string * Session => ¬ (clock w (S (S (clockReads w))) > expiresAt kv.2))
             (<[sessionId s := s]> (sessions w)) /\
    users w1 = users w /\
    databaseConnected w1 = databaseConnected w /\
    clock w1 = clock w /\
    clockReads w1 = S (S (S (clockReads w))) /\
    random w1 = random w /\
    randomDraws w1 = S (S (randomDraws w)).
Proof.
  unfold createSession, generateSessionId, cleanExpiredSessions. run.
  eexists _, _. split; [reflexivity |].
  cbn. repeat split; reflexivity.
Qed.

Lemma getSession_absent (token : string) (w : World) :
  sessions w !! token = None -> getSession token w = (Returned None, w).
Proof. intros H. unfold getSession. run. rewrite H. reflexivity. Qed.

Lemma getSession_live (token : string) (s : Session) (w : World) :
  sessions w !! token = Some s ->
  clock w (clockReads w) <= expiresAt s ->
  getSession token w = (Returned (Some s), tick w).
Proof.
  intros H Hnow. unfold getSession. run. rewrite H.
  destruct (decide (clock w (clockReads w) > expiresAt s)) as [Hgt | _]; [lia | reflexivity].
Qed.

Lemma getSession_expired (token : string) (s : Session) (w : World) :
  sessions w !! token = Some s ->
  expiresAt s < clock w (clockReads w) ->
  getSession token w = (Returned None, with_sessions (delete token) (tick w)).
Proof.
  intros H Hnow. unfold getSession. run. rewrite H.
  destruct (decide (clock w (clockReads w) > expiresAt s)) as [_ | Hle]; [reflexivity | lia].
Qed.

(** [getSession] never throws, and it returns a session only when that
    session is stored under the token and has not expired. *)
Lemma getSession_cases (token : string) (w : World) :
  (exists w', getSession token w = (Returned None, w') /\ sessions w' !! token = None) \/
  (exists s, getSession token w = (Returned (Some s), tick w) /\
             sessions w !! token = Some s /\ clock w (clockReads w) <= expiresAt s).
Proof.
  destruct (sessions w !! token) as [s |] eqn:H.
  - destruct (Z_lt_le_dec (expiresAt s) (clock w (clockReads w))) as [Hlt | Hle].
    + left. eexists. split; [exact (getSession_expired _ _ _ H Hlt) |].
      cbn. apply lookup_delete_eq.
    + right. exists s. split; [exact (getSession_live _ _ _ H Hle) | done].
  - left. exists w. split; [by apply getSession_absent | done].
Qed.

(** C5. A session returned by [createSession] carries the principal, is
    created at the reading of the clock that follows the token's and expires
    seven days after that reading. It is stored under its token once the
    sweep that ends [createSession] is over. From then on, [getSession] on
    the token returns that very session at every reading of the clock up to
    [expiresAt]; at a reading strictly after [expiresAt] it returns nothing
    and the token is deleted from the store. *)
Theorem createSession_then_getSession (principal : string) (w : World) :
  exists (s : Session) (w1 : World),
    createSession principal w = (Returned s, w1) /\
    sessionId s = pretty (clock w (clockReads w)) +:+ "-" +:+ random w (randomDraws w)
                    +:+ "-" +:+ random w (S (randomDraws w)) /\
    username s = principal /\
    createdAt s = clock w (S (clockReads w)) /\
    expiresAt s = createdAt s + 7 * 24 * 60 * 60 * 1000 /\
    clock w1 = clock w /\
    clockReads w1 = S (S (S (clockReads w))) /\
    users w1 = users w /\
    (clock w (S (S (clockReads w))) <= expiresAt s -> sessions w1 !! sessionId s = Some s) /\
    forall w' : World,
      sessions w' = sessions w1 ->
      let now := clock w' (clockReads w') in
      (clock w (S (S (clockReads w))) <= now -> now <= expiresAt s ->
         getSession (sessionId s) w' = (Returned (Some s), tick w')) /\
      (expiresAt s < now ->
         exists w2, getSession (sessionId s) w' = (Returned None, w2) /\
                    sessions w2 = delete (sessionId s) (sessions w') /\
                    sessions w2 !! sessionId s = None).
Proof.
  destruct (createSession_run principal w)
    as (s & w1 & Hrun & Hid & Hu & Hc & He & Hs & Husers & _ & Hclock & Hr & _ & _).
  assert (Hstored : clock w (S (S (clockReads w))) <= expiresAt s ->
                    sessions w1 !! sessionId s = Some s).
  { intros Hsweep. rewrite Hs. apply map_lookup_filter_Some.
    split; [apply lookup_insert_eq |]. cbn. lia. }
  exists s, w1. split; [exact Hrun |]. split; [exact Hid |]. split; [exact Hu |].
  split; [exact Hc |]. split; [rewrite He, Hc; reflexivity |].
  split; [exact Hclock |]. split; [exact Hr |]. split; [exact Husers |].
  split; [exact Hstored |].
  intros w' Hsess now. subst now. split.
  - intros Hsweep Hnow. apply getSession_live; [| exact Hnow].
    rewrite Hsess. apply Hstored. lia.
  - intros Hnow. destruct (sessions w' !! sessionId s) as [s' |] eqn:Hin.
    + assert (s' = s) as ->.
      { rewrite Hsess, Hs in Hin. apply map_lookup_filter_Some in Hin as [Hin _].
        rewrite lookup_insert_eq in Hin. by inversion Hin. }
      eexists. split; [exact (getSession_expired _ _ _ Hin Hnow) |].
      cbn. split; [reflexivity | apply lookup_delete_eq].
    + exists w'. split; [by apply getSession_absent |].
      split; [symmetry; by apply delete_id | exact Hin].
Qed.

(** A concrete run, on the sample world: the session created for ["admin"]
    at the reading 1700000002000 expires at 1700604802000; it is read back
    at the next reading of the clock, and it is gone for a reader whose clock
    shows 1800000000000. *)
Lemma createSession_then_getSession_witness :
  createSession "admin" sampleWorld = (Returned sampleSession, loggedIn) /\
  sampleToken = "1700000001000-k3j9x0-k3j9x1" /\
  username sampleSession = "admin" /\
  createdAt sampleSession = 1700000002000 /\
  expiresAt sampleSession = 1700604802000 /\
  sessions loggedIn !! sampleToken = Some sampleSession /\
  clock loggedIn (clockReads loggedIn) = 1700000004000 /\
  getSession sampleToken loggedIn = (Returned (Some sampleSession), tick loggedIn) /\
  clock staleWorld (clockReads staleWorld) = 1800000000000 /\
  exists w2 : World,
    getSession sampleToken staleWorld = (Returned None, w2) /\
    sessions w2 = delete sampleToken (sessions staleWorld) /\
    sessions w2 !! sampleToken = None.
Proof.
  destruct (createSession_then_getSession "admin" sampleWorld)
    as (s & w1 & Hrun & Hid & Hu & Hc & He & Hclock & Hreads & _ & Hstored & Hget).
  assert (Hs : s = sampleSession).
  { destruct s as [i u c e]. cbn in Hid, Hu, Hc, He. subst i u c e.
    vm_compute. reflexivity. }
  assert (Hw : w1 = loggedIn) by (unfold loggedIn; rewrite Hrun; reflexivity).
  subst s w1.
  split; [exact Hrun |]. split; [reflexivity |]. split; [reflexivity |].
  split; [reflexivity |]. split; [reflexivity |].
  split; [apply Hstored; vm_compute; discriminate |].
  split; [rewrite Hclock, Hreads; reflexivity |].
  split.
  - apply (Hget loggedIn); [reflexivity | |];
      rewrite Hclock, Hreads; vm_compute; discriminate.
  - split; [reflexivity |].
    apply (Hget staleWorld); [reflexivity |]. vm_compute. reflexivity.
Defined.

End SessionStoreFacts.

(** ** The user store and the authentication handlers *)

Section UserStoreFacts.

Import UserStore.

Lemma verifyCredentials_run (u p : string) (w : World) :
  verifyCredentials u p w =
    (Returned match users w !! u with
              | Some user => String.eqb (passwordHash user) (hashPassword p)
              | None => false
              end, w).
Proof. unfold verifyCredentials. run. destruct (users w !! u); reflexivity. Qed.

Lemma is_empty_false (s : string) : s <> "" -> is_empty s = false.
Proof. intros H. unfold is_empty. by apply String.eqb_neq. Qed.

Lemma loginHandler_rejects (p : LoginPayload) (user : User) (w : World) :
  users w !! login_username p = Some user ->
  passwordHash user <> hashPassword (login_password p) ->
  loginHandler p w =
    (Threw (JsError (if is_empty (login_username p) || is_empty (login_password p)
                     then "Username and password are required"
                     else "Invalid username or password")), w).
Proof.
  intros Huser Hhash. unfold loginHandler.
  destruct (is_empty (login_username p) || is_empty (login_password p)); [reflexivity |].
  run. rewrite verifyCredentials_run, Huser.
  apply String.eqb_neq in Hhash. rewrite Hhash. reflexivity.
Qed.

Lemma loginHandler_accepts (p : LoginPayload) (user : User) (w : World) :
  login_username p <> "" -> login_password p <> "" ->
  users w !! login_username p = Some user ->
  passwordHash user = hashPassword (login_password p) ->
  exists (s : Session) (w1 : World),
    SessionStore.createSession (login_username p) w = (Returned s, w1) /\
    loginHandler p w = (Returned (LoginResponse_of s), w1).
Proof.
  intros Hu Hp Huser Hhash. unfold loginHandler.
  rewrite (is_empty_false _ Hu), (is_empty_false _ Hp). cbn [orb].
  run. rewrite verifyCredentials_run, Huser.
  apply String.eqb_eq in Hhash. rewrite Hhash. cbn [negb].
  destruct (createSession_run (login_username p) w) as (s & w1 & Hrun & _).
  exists s, w1. split; [exact Hrun |]. rewrite Hrun. reflexivity.
Qed.

(** C7, as the code has it. [updatePassword] answers [false] and changes
    nothing for an unknown principal; for a stored one it answers [true] and
    replaces the stored hash by the hash of the new password, which
    [verifyCredentials] then accepts. In both cases every session stays in
    place. Sessions of a principal are deleted in bulk by
    [deleteUserSessions], which keeps the sessions of everybody else:
    afterwards [getSession] returns nothing for each token that belonged to
    the principal. *)
Theorem updatePassword_keeps_sessions_deleteUserSessions_revokes
    (principal newPassword : string) (w : World) :
  (exists (changed : bool) (w1 : World),
     updatePassword principal newPassword w = (Returned changed, w1) /\
     sessions w1 = sessions w /\
     match users w !! principal with
     | Some user =>
         changed = true /\
         users w1 = <[principal := {| user_username := user_username user;
                                      passwordHash := hashPassword newPassword;
                                      user_createdAt := user_createdAt user |}]> (users w) /\
         verifyCredentials principal newPassword w1 = (Returned true, w1)
     | None => changed = false /\ w1 = w
     end) /\
  (exists w2 : World,
     SessionStore.deleteUserSessions principal w = (Returned tt, w2) /\
     users w2 = users w /\
     (forall (token : string) (s : Session),
        sessions w !! token = Some s -> username s <> principal ->
        sessions w2 !! token = Some s) /\
     forall (token : string) (s : Session),
       sessions w !! token = Some s -> username s = principal ->
       sessions w2 !! token = None /\
       SessionStore.getSession token w2 = (Returned None, w2)).
Proof.
  split.
  - unfold updatePassword. run. destruct (users w !! principal) as [user |].
    + eexists _, _. split; [reflexivity |]. split; [reflexivity |].
      split; [reflexivity |]. split; [reflexivity |].
      rewrite verifyCredentials_run. cbn [users with_users].
      rewrite lookup_insert_eq. cbn [passwordHash]. rewrite String.eqb_refl. reflexivity.
    + eexists _, _. split; [reflexivity |]. split; [reflexivity |]. split; reflexivity.
  - eexists. split; [reflexivity |]. split; [reflexivity |]. split.
    + intros token s Hin Hu. cbn. apply map_lookup_filter_Some. split; [exact Hin | exact Hu].
    + intros token s Hin Hu.
      assert (Hgone : sessions (with_sessions
                (filter (fun kv : string * Session => ¬ (username kv.2 = principal))) w)
                !! token = None).
      { cbn. apply map_lookup_filter_None. right. intros s' Hin' Hkeep.
        rewrite Hin in Hin'. inversion Hin'; subst s'. cbn in Hkeep. contradiction. }
      split; [exact Hgone |]. apply getSession_absent. exact Hgone.
Qed.

(** C7, as stated, fails: a session of ["admin"] created on the sample world
    is still returned by [getSession] after [updatePassword] has changed
    the password of ["admin"]. *)
Lemma updatePassword_revokes_sessions_counterexample :
  let created := SessionStore.createSession "admin" sampleWorld in
  let changed := updatePassword "admin" "s3cret" created.2 in
  exists s : Session,
    created.1 = Returned s /\
    username s = "admin" /\
    changed.1 = Returned true /\
    (SessionStore.getSession (sessionId s) changed.2).1 = Returned (Some s).
Proof.
  exists sampleSession. vm_compute. repeat split; reflexivity.
Qed.

(** C10, the store: once [userStore] is constructed it holds the user
    ["admin"] whose hash is the SHA-256 of ["admin"], and
    [verifyCredentials("admin", "admin")] is [true]. *)
Lemma startup_admin (clk : nat -> Z) (rnd : nat -> string) :
  users (startup clk rnd) !! "admin" =
    Some {| user_username := "admin";
            passwordHash := "8c6976e5b5410415bde908bd4dee15dfb167a9c873fc4bb8a81f6f2ab448a918";
            user_createdAt := clk 0%nat |} /\
  verifyCredentials "admin" "admin" (startup clk rnd) = (Returned true, startup clk rnd).
Proof.
  assert (Hadmin : users (startup clk rnd) !! "admin" =
    Some {| user_username := "admin";
            passwordHash := "8c6976e5b5410415bde908bd4dee15dfb167a9c873fc4bb8a81f6f2ab448a918";
            user_createdAt := clk 0%nat |}).
  { vm_compute. reflexivity. }
  split; [exact Hadmin |].
  rewrite verifyCredentials_run, Hadmin. reflexivity.
Qed.

End UserStoreFacts.

(** ** The dispatcher *)

Section DispatcherFacts.

Context `{D : Deployment}.

Import SessionStore.

Lemma publicHandlers_spec (messageName : string) :
  messageName ∈ publicHandlers <->
  messageName = InitializeApplication \/ messageName = ConnectDatabase \/
  messageName = Login \/ messageName = CheckAuth.
Proof. unfold publicHandlers. rewrite !elem_of_union, !elem_of_singleton. tauto. Qed.

Lemma handlersWithoutDatabase_spec (messageName : string) :
  messageName ∈ handlersWithoutDatabase <->
  messageName = InitializeApplication \/ messageName = ConnectDatabase \/
  messageName = Login \/ messageName = Logout \/ messageName = CheckAuth.
Proof. unfold handlersWithoutDatabase. rewrite !elem_of_union, !elem_of_singleton. tauto. Qed.

Lemma public_without_database (messageName : string) :
  messageName ∈ publicHandlers -> messageName ∈ handlersWithoutDatabase.
Proof. rewrite publicHandlers_spec, handlersWithoutDatabase_spec. tauto. Qed.

Lemma authenticationGate_public (messageName : string) (req : Request) (w : World) :
  messageName ∈ publicHandlers ->
  authenticationGate messageName req w = (Returned None, w).
Proof.
  intros Hin. unfold authenticationGate.
  rewrite bool_decide_eq_true_2 by exact Hin. reflexivity.
Qed.

(** Without a header that names a live session the gate replies 401. *)
Lemma authenticationGate_denies (messageName : string) (req : Request) (w : World) :
  messageName ∉ publicHandlers ->
  (forall sessionId : string,
     x_session_id req = Some sessionId -> (getSession sessionId w).1 = Returned None) ->
  exists (message : string) (w' : World),
    authenticationGate messageName req w = (Returned (Some (unauthorized message)), w').
Proof.
  intros Hout Hnone. unfold authenticationGate.
  rewrite bool_decide_eq_false_2 by exact Hout.
  destruct (x_session_id req) as [sid |]; [| eexists _, _; reflexivity].
  destruct (is_empty sid); [eexists _, _; reflexivity |].
  specialize (Hnone sid eq_refl). run.
  destruct (getSession sid w) as [[[s |] | e] w'] eqn:Hget; cbn in Hnone; try discriminate.
  eexists _, _. reflexivity.
Qed.

(** A header that names a live session passes the gate. *)
Lemma authenticationGate_admits (messageName sid : string) (s : Session)
    (req : Request) (w : World) :
  messageName ∉ publicHandlers ->
  x_session_id req = Some sid -> sid <> "" ->
  sessions w !! sid = Some s -> clock w (clockReads w) <= expiresAt s ->
  authenticationGate messageName req w = (Returned None, tick w).
Proof.
  intros Hout Hsid Hne Hin Hnow. unfold authenticationGate.
  rewrite bool_decide_eq_false_2 by exact Hout.
  rewrite Hsid, (is_empty_false _ Hne). run.
  rewrite (getSession_live _ _ _ Hin Hnow). reflexivity.
Qed.

(** The gate either lets the call through or replies 401; it lets a
    protected call through only for a live session. *)
Lemma authenticationGate_cases (messageName : string) (req : Request) (w : World) :
  messageName ∉ publicHandlers ->
  (exists (message : string) (w' : World),
     authenticationGate messageName req w = (Returned (Some (unauthorized message)), w')) \/
  (exists (sid : string) (s : Session),
     x_session_id req = Some sid /\ sid <> "" /\
     sessions w !! sid = Some s /\ clock w (clockReads w) <= expiresAt s /\
     authenticationGate messageName req w = (Returned None, tick w)).
Proof.
  intros Hout.
  destruct (x_session_id req) as [sid |] eqn:Hsid.
  - destruct (String.eqb_spec sid "") as [-> | Hne].
    + left. unfold authenticationGate.
      rewrite bool_decide_eq_false_2 by exact Hout. rewrite Hsid.
      eexists _, _. reflexivity.
    + destruct (getSession_cases sid w) as [(w' & Hget & _) | (s & Hget & Hin & Hnow)].
      * left. apply authenticationGate_denies; [exact Hout |].
        intros sid' Heq. rewrite Hsid in Heq. inversion Heq; subst sid'.
        rewrite Hget. reflexivity.
      * right. exists sid, s. repeat split; try assumption.
        by eapply authenticationGate_admits.
  - left. apply authenticationGate_denies; [exact Hout |].
    intros sid' Heq. rewrite Hsid in Heq. discriminate.
Qed.

Lemma databaseGate_run (messageName : string) (w : World) :
  databaseGate messageName w =
    (Returned (if bool_decide (messageName ∈ handlersWithoutDatabase) then None
               else if databaseConnected w then None else Some databaseNotConnected), w).
Proof.
  unfold databaseGate, checkDatabaseConnection.
  destruct (bool_decide (messageName ∈ handlersWithoutDatabase)); [reflexivity |].
  run. destruct (databaseConnected w); reflexivity.
Qed.

(** The gates never throw: they reply 401 or 503, or let the call through. *)
Lemma gates_cases (messageName : string) (req : Request) (w : World) :
  exists (r : option Response) (w' : World),
    gates messageName req w = (Returned r, w') /\
    (r = None \/ (exists message, r = Some (unauthorized message)) \/
     r = Some databaseNotConnected).
Proof.
  unfold gates. run.
  destruct (decide (messageName ∈ publicHandlers)) as [Hin | Hout].
  - rewrite (authenticationGate_public _ _ _ Hin), databaseGate_run.
    rewrite bool_decide_eq_true_2 by (by apply public_without_database).
    eexists _, _. split; [reflexivity | by left].
  - destruct (authenticationGate_cases messageName req w Hout)
      as [(m & w' & ->) | (sid & s & _ & _ & _ & _ & ->)].
    + eexists _, _. split; [reflexivity |]. right; left. by exists m.
    + rewrite databaseGate_run. eexists _, _. split; [reflexivity |].
      destruct (bool_decide _); [by left |].
      destruct (databaseConnected _); [by left | by right; right].
Qed.

(** C2. A registered operation that is not public, dispatched without a
    session header, or with a header whose token is not in the store or is
    stored with an expiry before the current reading of the clock, is
    answered 401 with error ["UNAUTHORIZED"], and its handler is not
    invoked. *)
Theorem unauthenticated_call_rejected (messageName : string) (h : Handler)
    (payload : option JValue) (req : Request) (w : World) :
  rendererHandlers messageName = Some h ->
  messageName ∉ publicHandlers ->
  (forall (sessionId : string) (s : Session),
     x_session_id req = Some sessionId -> sessions w !! sessionId = Some s ->
     expiresAt s < clock w (clockReads w)) ->
  exists (message : string) (w' : World),
    executeHandler messageName payload req w = (replied (unauthorized message) [], w') /\
    status (unauthorized message) = 401 /\
    field "error" (json (unauthorized message)) = Some (JStr "UNAUTHORIZED") /\
    handlerCalls (executeHandler messageName payload req w).1 = [].
Proof.
  intros Hreg Hout Hdead.
  assert (Hnone : forall sid : string,
            x_session_id req = Some sid -> (getSession sid w).1 = Returned None).
  { intros sid Hsid.
    destruct (getSession_cases sid w) as [(w' & -> & _) | (s & _ & Hin & Hle)]; [reflexivity |].
    specialize (Hdead sid s Hsid Hin). lia. }
  destruct (authenticationGate_denies messageName req w Hout Hnone) as (m & w' & Hgate).
  exists m, w'.
  assert (Hrun : executeHandler messageName payload req w = (replied (unauthorized m) [], w')).
  { unfold executeHandler, gates. rewrite Hreg. run. rewrite Hgate. reflexivity. }
  rewrite Hrun. repeat split; reflexivity.
Qed.

(** C1, as the code has it. Four operations are exempt from the
    authentication gate: initialize-application, connect-database, login
    and check-auth. The reply to a dispatch of one of them does not depend
    on the session header; every other registered operation is answered
    otherwise than 401 only for a header that names a live session. *)
Theorem four_public_handlers (messageName : string) (h : Handler) :
  rendererHandlers messageName = Some h ->
  (messageName ∈ publicHandlers <->
     messageName = InitializeApplication \/ messageName = ConnectDatabase \/
     messageName = Login \/ messageName = CheckAuth) /\
  (messageName ∈ publicHandlers ->
     forall (payload : option JValue) (req req' : Request) (w : World),
       executeHandler messageName payload req w = executeHandler messageName payload req' w) /\
  (messageName ∉ publicHandlers ->
     forall (payload : option JValue) (req : Request) (w : World),
       status (response (executeHandler messageName payload req w).1) <> 401 ->
       exists (sid : string) (s : Session),
         x_session_id req = Some sid /\ sessions w !! sid = Some s /\
         clock w (clockReads w) <= expiresAt s).
Proof.
  intros Hreg. split; [apply publicHandlers_spec |]. split.
  - intros Hin payload req req' w. unfold executeHandler, gates. rewrite Hreg. run.
    rewrite !(authenticationGate_public _ _ _ Hin). reflexivity.
  - intros Hout payload req w Hstatus.
    destruct (authenticationGate_cases messageName req w Hout)
      as [(m & w' & Hgate) | (sid & s & Hsid & _ & Hin & Hnow & _)].
    + exfalso. apply Hstatus. unfold executeHandler, gates. rewrite Hreg. run.
      rewrite Hgate. reflexivity.
    + exists sid, s. repeat split; assumption.
Qed.


(** C4, as the code has it. Every reply of the four routes is one of:
    200 with [{success: true}] or [{success: true, data}]; 401, 503 or 500
    with [{success: false, error, message}]; or, for a name that is not
    registered, 404 with [{success: false, error: 'Handler not found',
    messageName}], which has no [message]. *)
Theorem route_reply_shapes (verb : Verb) (messageName : string) (req : Request) (w : World) :
  let r := response (route verb messageName req w).1 in
  (status r = 200 /\
     (json r = JObj [("success", JBool true)] \/
      exists data, json r = JObj [("success", JBool true); ("data", data)])) \/
  (status r = 401 /\
     exists message, json r = JObj [("success", JBool false); ("error", JStr "UNAUTHORIZED");
                                    ("message", JStr message)]) \/
  (status r = 503 /\
     exists message, json r = JObj [("success", JBool false); ("error", JNum UnknownError);
                                    ("message", JStr message)]) \/
  (status r = 500 /\
     exists error message,
       json r = JObj [("success", JBool false); ("error", JNum (getErrorCodeFromError error));
                      ("message", JStr message)]) \/
  (status r = 404 /\ rendererHandlers messageName = None /\
     json r = JObj [("success", JBool false); ("error", JStr "Handler not found");
                    ("messageName", JStr messageName)]).
Proof.
  assert (Hexec : forall payload,
    let r := response (executeHandler messageName payload req w).1 in
    (status r = 200 /\
       (json r = JObj [("success", JBool true)] \/
        exists data, json r = JObj [("success", JBool true); ("data", data)])) \/
    (status r = 401 /\
       exists message, json r = JObj [("success", JBool false); ("error", JStr "UNAUTHORIZED");
                                      ("message", JStr message)]) \/
    (status r = 503 /\
       exists message, json r = JObj [("success", JBool false); ("error", JNum UnknownError);
                                      ("message", JStr message)]) \/
    (status r = 500 /\
       exists error message,
         json r = JObj [("success", JBool false); ("error", JNum (getErrorCodeFromError error));
                        ("message", JStr message)]) \/
    (status r = 404 /\ rendererHandlers messageName = None /\
       json r = JObj [("success", JBool false); ("error", JStr "Handler not found");
                      ("messageName", JStr messageName)])).
  { intros payload. unfold executeHandler.
    destruct (rendererHandlers messageName) as [h |] eqn:Hreg.
    - destruct (gates_cases messageName req w) as (g & w1 & -> & [-> | [[m ->] | ->]]).
      + destruct (h _ w1) as [[[data |] | e] w2]; cbn.
        * left. split; [reflexivity |]. right. by exists data.
        * left. split; [reflexivity |]. by left.
        * do 3 right. left. split; [reflexivity |]. eexists e, _. reflexivity.
      + right; left. split; [reflexivity |]. by exists m.
      + do 2 right. left. split; [reflexivity |]. eexists. reflexivity.
    - do 4 right. cbn. repeat split; reflexivity. }
  destruct verb; cbn; apply Hexec.
Qed.

(** What a dispatch of the login operation does, for a registry whose
    login entry is [loginHandler]. *)
Lemma executeHandler_login (h : Handler) (p : LoginPayload) (req : Request) (w : World) :
  rendererHandlers Login = Some h ->
  implements LoginPayload_json (fun r => Some (LoginResponse_json r)) h loginHandler ->
  executeHandler Login (Some (LoginPayload_json p)) req w =
    match loginHandler p w with
    | (Returned r, w') =>
        (replied (succeeded (Some (LoginResponse_json r))) [Some (LoginPayload_json p)], w')
    | (Threw e, w') => (replied (caught e) [Some (LoginPayload_json p)], w')
    end.
Proof.
  intros Hreg Himpl. unfold executeHandler, gates. rewrite Hreg. run.
  assert (Hpub : Login ∈ publicHandlers) by (apply publicHandlers_spec; tauto).
  rewrite (authenticationGate_public _ _ _ Hpub), databaseGate_run.
  rewrite bool_decide_eq_true_2 by (by apply public_without_database).
  change (hasPayload (Some (LoginPayload_json p))) with true. cbv iota.
  rewrite Himpl. run.
  destruct (loginHandler p w) as [[r | e] w']; reflexivity.
Qed.

(** Dispatching login with the name of a stored user and a password whose
    hash is not the stored one is answered 500 with [success: false], the
    error code [getErrorCodeFromError] derives from the thrown error, and
    the message of that error, which is ["Invalid username or password"]
    when neither field is empty; the world, and so the session store, is
    unchanged. The kind of the failure is the one of that code:
    [UnknownError] when [getErrorCodeFromError] maps the [Error] that
    [loginHandler] throws to [ErrorCode.UnknownError], a handler-specific
    kind when it maps it to another code. [getErrorCodeFromError] is not
    part of the excerpt. *)
Theorem login_wrong_password (h : Handler) (p : LoginPayload) (user : User)
    (req : Request) (w : World) :
  rendererHandlers Login = Some h ->
  implements LoginPayload_json (fun r => Some (LoginResponse_json r)) h loginHandler ->
  users w !! login_username p = Some user ->
  passwordHash user <> UserStore.hashPassword (login_password p) ->
  let message :=
    if is_empty (login_username p) || is_empty (login_password p)
    then "Username and password are required"
    else "Invalid username or password" in
  let code := getErrorCodeFromError (JsError message) in
  let reply :=
    {| status := 500;
       json := JObj [("success", JBool false); ("error", JNum code);
                     ("message", JStr message)] |} in
  executeHandler Login (Some (LoginPayload_json p)) req w =
    (replied reply [Some (LoginPayload_json p)], w) /\
  errorKind (json reply) =
    Some (if code =? UnknownError then KindUnknownError else KindDomainError code).
Proof.
  intros Hreg Himpl Huser Hhash message code reply. split.
  - rewrite (executeHandler_login h p req w Hreg Himpl).
    rewrite (loginHandler_rejects p user w Huser Hhash). reflexivity.
  - unfold errorKind. cbn. destruct (code =? UnknownError); reflexivity.
Qed.

(** C10. On the world as it is once [userStore] is constructed, the user
    ["admin"] is stored with the SHA-256 of ["admin"],
    [verifyCredentials("admin", "admin")] is [true], and a dispatch of
    login with these credentials is answered 200 with the new session. *)
Theorem default_admin_logs_in (h : Handler) (clk : nat -> Z) (rnd : nat -> string)
    (req : Request) :
  rendererHandlers Login = Some h ->
  implements LoginPayload_json (fun r => Some (LoginResponse_json r)) h loginHandler ->
  let w := startup clk rnd in
  let credentials := {| login_username := "admin"; login_password := "admin" |} in
  users w !! "admin" =
    Some {| user_username := "admin";
            passwordHash := "8c6976e5b5410415bde908bd4dee15dfb167a9c873fc4bb8a81f6f2ab448a918";
            user_createdAt := clk 0%nat |} /\
  UserStore.hashPassword "admin" =
    "8c6976e5b5410415bde908bd4dee15dfb167a9c873fc4bb8a81f6f2ab448a918" /\
  UserStore.verifyCredentials "admin" "admin" w = (Returned true, w) /\
  exists (s : Session) (w1 : World),
    createSession "admin" w = (Returned s, w1) /\
    username s = "admin" /\
    executeHandler Login (Some (LoginPayload_json credentials)) req w =
      (replied {| status := 200;
                  json := JObj [("success", JBool true);
                                ("data", JObj [("success", JBool true);
                                               ("sessionId", JStr (sessionId s));
                                               ("username", JStr "admin")])] |}
               [Some (LoginPayload_json credentials)], w1).
Proof.
  intros Hreg Himpl w credentials.
  destruct (startup_admin clk rnd) as [Hadmin Hverify].
  split; [exact Hadmin |]. split; [vm_compute; reflexivity |]. split; [exact Hverify |].
  assert (Hhash : passwordHash
                    {| user_username := "admin";
                       passwordHash := "8c6976e5b5410415bde908bd4dee15dfb167a9c873fc4bb8a81f6f2ab448a918";
                       user_createdAt := clk 0%nat |}
                  = UserStore.hashPassword (login_password credentials))
    by (vm_compute; reflexivity).
  destruct (loginHandler_accepts credentials _ w ltac:(discriminate) ltac:(discriminate)
              Hadmin Hhash) as (s & w1 & Hcreate & Hlogin).
  destruct (createSession_run "admin" w) as (s' & w1' & Hrun & _ & Hu & _).
  cbn [login_username credentials] in Hcreate.
  rewrite Hcreate in Hrun. inversion Hrun; subst s' w1'.
  exists s, w1. split; [exact Hcreate |]. split; [exact Hu |].
  rewrite (executeHandler_login h credentials req w Hreg Himpl), Hlogin.
  unfold succeeded, LoginResponse_json, LoginResponse_of. cbn. rewrite Hu. reflexivity.
Qed.

End DispatcherFacts.

(** ** The statements on the sample deployment *)

Section OnTheSample.

Existing Instance sample.

Lemma sample_login_entry :
  implements LoginPayload_json (fun r => Some (LoginResponse_json r))
    (typed LoginPayload_of_json (fun r => Some (LoginResponse_json r)) loginHandler)
    loginHandler.
Proof. intros p w. reflexivity. Qed.

Lemma echo_is_protected : "echo" ∉ publicHandlers.
Proof. rewrite publicHandlers_spec. cbn. intros [H | [H | [H | H]]]; discriminate H. Qed.


Lemma loggedIn_session : sessions loggedIn !! sampleToken = Some sampleSession.
Proof. vm_compute. reflexivity. Qed.

Lemma loggedIn_live : clock loggedIn (clockReads loggedIn) <= expiresAt sampleSession.
Proof. vm_compute. discriminate. Qed.

(** ["echo"] dispatched without a session header on the sample world. *)
Lemma unauthenticated_call_rejected_witness :
  rendererHandlers "echo" = Some echo /\
  ("echo" ∉ publicHandlers) /\
  exists (message : string) (w' : World),
    executeHandler "echo" (Some (JStr "x")) (anonymous None) sampleWorld
      = (replied (unauthorized message) [], w') /\
    status (unauthorized message) = 401 /\
    field "error" (json (unauthorized message)) = Some (JStr "UNAUTHORIZED") /\
    handlerCalls (executeHandler "echo" (Some (JStr "x")) (anonymous None) sampleWorld).1 = [].
Proof.
  split; [reflexivity |]. split; [exact echo_is_protected |].
  apply (unauthenticated_call_rejected "echo" echo (Some (JStr "x")) (anonymous None) sampleWorld).
  - reflexivity.
  - exact echo_is_protected.
  - intros sid s H. discriminate H.
Defined.

(** The four exemptions, read off at ["connect-database"]. *)
Lemma four_public_handlers_witness :
  rendererHandlers "connect-database" = Some connectDatabase /\
  ("connect-database" ∈ publicHandlers <->
     "connect-database" = InitializeApplication \/ "connect-database" = ConnectDatabase \/
     "connect-database" = Login \/ "connect-database" = CheckAuth) /\
  ("connect-database" ∈ publicHandlers ->
     forall (payload : option JValue) (req req' : Request) (w : World),
       executeHandler "connect-database" payload req w
         = executeHandler "connect-database" payload req' w) /\
  ("connect-database" ∉ publicHandlers ->
     forall (payload : option JValue) (req : Request) (w : World),
       status (response (executeHandler "connect-database" payload req w).1) <> 401 ->
       exists (sid : string) (s : Session),
         x_session_id req = Some sid /\ sessions w !! sid = Some s /\
         clock w (clockReads w) <= expiresAt s).
Proof.
  split; [reflexivity |].
  apply (four_public_handlers "connect-database" connectDatabase). reflexivity.
Defined.

(** C1, as stated, fails: connect-database is registered, is none of
    initialize-application, login and check-auth, and a dispatch of it
    without a session header is answered 200. *)
Lemma three_exemptions_counterexample :
  is_Some (rendererHandlers ConnectDatabase) /\
  ConnectDatabase <> InitializeApplication /\
  ConnectDatabase <> Login /\
  ConnectDatabase <> CheckAuth /\
  x_session_id (anonymous None) = None /\
  status (response (executeHandler ConnectDatabase None (anonymous None) sampleWorld).1) = 200.
Proof.
  split; [eexists; reflexivity |].
  repeat split; try discriminate; reflexivity.
Qed.



(** C4, as stated, fails: the reply to a name that is not registered is not
    in the uniform envelope, having [messageName] where [message] should
    be. *)
Lemma unknown_operation_envelope_counterexample :
  rendererHandlers "no-such-operation" = None /\
  json (response (route GET "no-such-operation" (anonymous None) sampleWorld).1)
    = JObj [("success", JBool false); ("error", JStr "Handler not found");
            ("messageName", JStr "no-such-operation")] /\
  ~ uniformEnvelope (json (response (route GET "no-such-operation" (anonymous None) sampleWorld).1)).
Proof.
  split; [reflexivity |]. split; [reflexivity |].
  unfold uniformEnvelope.
  intros [H | [[data H] | (error & message & H)]]; vm_compute in H; discriminate H.
Qed.

(** Login as ["admin"] with the password ["wrong"] on the sample world,
    whose [getErrorCodeFromError] knows no code but
    [ErrorCode.UnknownError]. *)
Lemma login_wrong_password_witness :
  users sampleWorld !! "admin" =
    Some {| user_username := "admin"; passwordHash := UserStore.hashPassword "admin";
            user_createdAt := 1700000000000 |} /\
  UserStore.hashPassword "admin" <> UserStore.hashPassword "wrong" /\
  executeHandler Login
      (Some (LoginPayload_json {| login_username := "admin"; login_password := "wrong" |}))
      (anonymous None) sampleWorld =
    (replied {| status := 500;
                json := JObj [("success", JBool false);
                              ("error", JNum UnknownError);
                              ("message", JStr "Invalid username or password")] |}
             [Some (LoginPayload_json {| login_username := "admin"; login_password := "wrong" |})],
     sampleWorld) /\
  errorKind (JObj [("success", JBool false); ("error", JNum UnknownError);
                   ("message", JStr "Invalid username or password")])
    = Some KindUnknownError.
Proof.
  assert (Huser : users sampleWorld !! "admin" =
    Some {| user_username := "admin"; passwordHash := UserStore.hashPassword "admin";
            user_createdAt := 1700000000000 |}) by (vm_compute; reflexivity).
  assert (Hhash : UserStore.hashPassword "admin" <> UserStore.hashPassword "wrong")
    by (vm_compute; discriminate).
  split; [exact Huser |]. split; [exact Hhash |].
  exact (login_wrong_password _ {| login_username := "admin"; login_password := "wrong" |} _
           (anonymous None) sampleWorld eq_refl sample_login_entry Huser Hhash).
Defined.

(** Login as ["admin"] with the password ["admin"] on a fresh world. *)
Lemma default_admin_logs_in_witness :
  exists (s : Session) (w1 : World),
    SessionStore.createSession "admin" sampleWorld = (Returned s, w1) /\
    username s = "admin" /\
    executeHandler Login
        (Some (LoginPayload_json {| login_username := "admin"; login_password := "admin" |}))
        (anonymous None) sampleWorld =
      (replied {| status := 200;
                  json := JObj [("success", JBool true);
                                ("data", JObj [("success", JBool true);
                                               ("sessionId", JStr (sessionId s));
                                               ("username", JStr "admin")])] |}
               [Some (LoginPayload_json {| login_username := "admin"; login_password := "admin" |})],
       w1).
Proof.
  exact (proj2 (proj2 (proj2
    (default_admin_logs_in _ sampleClock sampleRandom (anonymous None)
       eq_refl sample_login_entry)))).
Defined.

End OnTheSample.

(** ** The hybrid client *)

Section ClientFacts.

Context `{D : Deployment}.

(** [request] makes one call of [fetch] and never throws: it returns an
    [ApiErrorResponse] when the call failed and an [ApiResponse] otherwise. *)
Lemma request_cases (endpoint verb : string) (content : option JValue) (b : Browser) :
  exists (call : FetchCall) (r : ApiResult) (b' : Browser),
    request endpoint verb content b = (Returned r, b') /\
    fetched b' = (fetched b ++ [call])%list /\
    url call = baseUrl b +:+ endpoint /\
    method call = verb /\
    fetch_body call = content /\
    (failed (network b (length (fetched b)) call) = true ->
       exists error message, r = ApiErrorResponse error message) /\
    (failed (network b (length (fetched b)) call) = false ->
       exists data, r = ApiResponse data).
Proof.
  unfold request, fetch, property. run.
  match goal with |- context [network b ?n ?c] => exists c end.
  destruct (network b (length (fetched b)) _) as [m | [|] st stt [m | v]];
    try destruct v; cbn;
    eexists _, _; (split; [reflexivity |]);
    repeat split; intros Hf; try discriminate Hf; eauto.
Qed.

(** C9. [HybridApiClient.send] makes exactly one call of [fetch], a POST
    to [/api/<name>] carrying the payload; when that call fails, [send]
    throws a number, an [ErrorCode]; otherwise it returns the data. *)
Theorem send_goes_over_http_and_throws_error_codes (message : SendableMessage) (b : Browser) :
  exists (call : FetchCall) (out : Outcome JValue) (b' : Browser),
    HybridApiClient_send message b = (out, b') /\
    HybridApiClient_send message = HttpApiClient_send message /\
    fetched b' = (fetched b ++ [call])%list /\
    url call = baseUrl b +:+ "/api/" +:+ name message /\
    method call = "POST" /\
    fetch_body call = payload message /\
    (failed (network b (length (fetched b)) call) = true ->
       exists code : Z, out = Threw (JsValue (JNum code))) /\
    (failed (network b (length (fetched b)) call) = false ->
       exists data : JValue, out = Returned data).
Proof.
  destruct (request_cases ("/api/" +:+ name message) "POST" (payload message) b)
    as (call & r & b' & Hrun & Hlog & Hurl & Hverb & Hbody & Hfail & Hok).
  exists call.
  unfold HybridApiClient_send, HttpApiClient_send, callHandler, post. run.
  rewrite Hrun.
  destruct r as [data | error msg].
  - exists (Returned data), b'. repeat split; try assumption.
    + intros Hf. destruct (Hfail Hf) as (e & m & He). discriminate He.
    + intros _. by exists data.
  - destruct error as [| bb | n | str | items | fields]; cbn;
      eexists _, b'; (split; [reflexivity |]);
      repeat split; try assumption;
      try (intros _; eexists; reflexivity);
      intros Hf; destruct (Hok Hf) as (d & Hd); discriminate Hd.
Qed.

(** The server's 401 reaches the caller of [send] as
    [ErrorCode.UnknownError], after one POST to [/api/echo]. *)
Example send_unauthorized :
  let sent := HybridApiClient_send {| name := "echo"; payload := Some (JStr "x") |} sampleBrowser in
  sent.1 = Threw (JsValue (JNum UnknownError)) /\
  fetched sent.2 =
    [{| url := "/api/echo"; method := "POST";
        headers := [("Content-Type", "application/json")];
        fetch_body := Some (JStr "x") |}].
Proof. split; reflexivity. Qed.

End ClientFacts.

(** ** More on the session store *)

Section MoreSessionStoreFacts.

Import SessionStore.

Lemma deleteSession_run (token : string) (w : World) :
  deleteSession token w =
    (Returned (bool_decide (is_Some (sessions w !! token))), with_sessions (delete token) w).
Proof. reflexivity. Qed.

(** The session map after [getSession]: as before, or without the token. *)
Lemma getSession_sessions (token : string) (w : World) :
  sessions (getSession token w).2 = sessions w \/
  sessions (getSession token w).2 = delete token (sessions w).
Proof.
  destruct (sessions w !! token) as [s |] eqn:Hin.
  - destruct (Z_lt_le_dec (expiresAt s) (clock w (clockReads w))) as [Hlt | Hle].
    + right. rewrite (getSession_expired _ _ _ Hin Hlt). reflexivity.
    + left. rewrite (getSession_live _ _ _ Hin Hle). reflexivity.
  - left. rewrite (getSession_absent _ _ Hin). reflexivity.
Qed.

(** X1. [deleteSession] reports whether the token was stored, removes it and
    nothing else, and a second call on the same token reports [false] and
    changes nothing. *)
Theorem deleteSession_twice (token : string) (w : World) :
  exists w1 w2 : World,
    deleteSession token w = (Returned (bool_decide (is_Some (sessions w !! token))), w1) /\
    sessions w1 !! token = None /\
    (forall other : string, other <> token -> sessions w1 !! other = sessions w !! other) /\
    users w1 = users w /\
    deleteSession token w1 = (Returned false, w2) /\
    sessions w2 = sessions w1.
Proof.
  exists (with_sessions (delete token) w),
         (with_sessions (delete token) (with_sessions (delete token) w)).
  split; [apply deleteSession_run |].
  split; [cbn; apply lookup_delete_eq |].
  split; [intros other Hne; cbn; by apply lookup_delete_ne |].
  split; [reflexivity |].
  split.
  - rewrite deleteSession_run. f_equal. f_equal.
    apply bool_decide_eq_false_2. cbn. rewrite lookup_delete_eq. by intros [? ?].
  - cbn. apply delete_id. apply lookup_delete_eq.
Qed.

(** X2. [deleteUserSessions] removes exactly the sessions of the named user:
    a session of another user stays under its token, and nothing is added. *)
Theorem deleteUserSessions_exact (user : string) (w : World) :
  exists w1 : World,
    deleteUserSessions user w = (Returned tt, w1) /\
    (forall (token : string) (s : Session),
       sessions w1 !! token = Some s <->
       sessions w !! token = Some s /\ username s <> user) /\
    users w1 = users w.
Proof.
  eexists. split; [reflexivity |]. split; [| reflexivity].
  intros token s. cbn. rewrite map_lookup_filter_Some. cbn. reflexivity.
Qed.

(** X3. [createSession] purges exactly the expired sessions: afterwards no
    stored session had expired at the clock reading of the sweep, and every
    session stored before under another token that had not expired at that
    reading is still stored. *)
Theorem createSession_sweeps (principal : string) (w : World) :
  exists (s : Session) (w1 : World),
    createSession principal w = (Returned s, w1) /\
    let sweep := clock w (S (S (clockReads w))) in
    (forall (token : string) (s' : Session),
       sessions w1 !! token = Some s' -> sweep <= expiresAt s') /\
    (forall (token : string) (s' : Session),
       token <> sessionId s ->
       (sessions w1 !! token = Some s' <->
        sessions w !! token = Some s' /\ sweep <= expiresAt s')).
Proof.
  destruct (createSession_run principal w)
    as (s & w1 & Hrun & _ & _ & _ & _ & Hs & _).
  exists s, w1. split; [exact Hrun |]. cbn zeta. split.
  - intros token s' Hin. rewrite Hs in Hin.
    apply map_lookup_filter_Some in Hin as [_ Hkeep]. cbn in Hkeep. lia.
  - intros token s' Hne. rewrite Hs, map_lookup_filter_Some.
    rewrite lookup_insert_ne by congruence. cbn. split.
    + intros [Hin Hkeep]. split; [exact Hin | lia].
    + intros [Hin Hkeep]. split; [exact Hin | lia].
Qed.

(** X4. [getSession] never throws, returns a session only if it is stored
    under the token and has not expired, and touches no other token and no
    user. *)
Theorem getSession_frame (token : string) (w : World) :
  exists (r : option Session) (w1 : World),
    getSession token w = (Returned r, w1) /\
    (forall s : Session,
       r = Some s ->
       sessions w !! token = Some s /\ clock w (clockReads w) <= expiresAt s /\
       sessions w1 = sessions w) /\
    (r = None -> sessions w1 !! token = None) /\
    (forall other : string, other <> token -> sessions w1 !! other = sessions w !! other) /\
    users w1 = users w.
Proof.
  destruct (sessions w !! token) as [s |] eqn:Hin.
  - destruct (Z_lt_le_dec (expiresAt s) (clock w (clockReads w))) as [Hlt | Hle].
    + eexists _, _. split; [exact (getSession_expired _ _ _ Hin Hlt) |].
      split; [intros s' H; discriminate H |].
      split; [intros _; cbn; apply lookup_delete_eq |].
      split; [intros other Hne; cbn; by apply lookup_delete_ne | reflexivity].
    + eexists _, _. split; [exact (getSession_live _ _ _ Hin Hle) |].
      split; [intros s' H; inversion H; subst s'; done |].
      split; [intros H; discriminate H |].
      split; [intros other _; reflexivity | reflexivity].
  - eexists _, _. split; [exact (getSession_absent _ _ Hin) |].
    split; [intros s' H; discriminate H |].
    split; [intros _; exact Hin |].
    split; [intros other _; reflexivity | reflexivity].
Qed.

(** X5. Every operation of the store keeps each session under its own id. *)
Theorem store_stays_keyed (w : World) :
  keyed w ->
  (forall principal : string, keyed (createSession principal w).2) /\
  (forall token : string, keyed (getSession token w).2) /\
  (forall token : string, keyed (deleteSession token w).2) /\
  (forall user : string, keyed (deleteUserSessions user w).2).
Proof.
  intros Hkeyed. repeat split.
  - intros principal token s' Hin.
    destruct (createSession_run principal w)
      as (s & w1 & Hrun & _ & _ & _ & _ & Hs & _).
    rewrite Hrun in Hin. cbn [snd] in Hin. rewrite Hs in Hin.
    apply map_lookup_filter_Some in Hin as [Hin _].
    destruct (decide (sessionId s = token)) as [<- | Hne].
    + rewrite lookup_insert_eq in Hin. by inversion Hin.
    + rewrite lookup_insert_ne in Hin by exact Hne. by apply Hkeyed.
  - intros token other s' Hin.
    destruct (getSession_sessions token w) as [Heq | Heq]; rewrite Heq in Hin.
    + by apply Hkeyed.
    + apply lookup_delete_Some in Hin as [_ Hin]. by apply Hkeyed.
  - intros token other s' Hin. rewrite deleteSession_run in Hin. cbn in Hin.
    apply lookup_delete_Some in Hin as [_ Hin]. by apply Hkeyed.
  - intros user token s' Hin. cbn in Hin.
    apply map_lookup_filter_Some in Hin as [Hin _]. by apply Hkeyed.
Qed.

End MoreSessionStoreFacts.

(** ** Tokens *)

Section TokenFacts.

Import SessionStore.

Lemma pretty_N_go_dashless (x : N) (s : string) :
  dashless s = true -> dashless (pretty_N_go x s) = true.
Proof.
  revert s. induction (N.lt_wf_0 x) as [x _ IH]. intros s Hs.
  destruct (decide (x = 0)%N) as [-> | Hpos].
  - by rewrite pretty_N_go_0.
  - rewrite pretty_N_go_step by lia. apply IH.
    + apply N.div_lt; lia.
    + cbn [dashless]. rewrite Hs, andb_true_r.
      unfold pretty_N_char. by repeat case_match.
Qed.

Lemma pretty_Z_dashless (z : Z) : 0 <= z -> dashless (pretty z) = true.
Proof.
  intros Hz. destruct z as [| p | p]; [reflexivity | | lia].
  change (pretty (Z.pos p)) with (pretty (N.pos p)).
  unfold pretty, pretty_N. destruct (decide (N.pos p = 0)%N); [reflexivity |].
  by apply pretty_N_go_dashless.
Qed.

(** Two strings that agree after a dashless prefix and a dash have the same
    prefix. *)
Lemma dashless_prefix (a b x y : string) :
  dashless a = true -> dashless b = true ->
  a +:+ "-" +:+ x = b +:+ "-" +:+ y -> a = b.
Proof.
  revert b. induction a as [| c a IH]; intros [| d b] Ha Hb Heq; cbn in *.
  - reflexivity.
  - inversion Heq; subst d. cbn in Hb. discriminate Hb.
  - inversion Heq; subst c. cbn in Ha. discriminate Ha.
  - inversion Heq; subst d. f_equal.
    apply andb_true_iff in Ha as [_ Ha]. apply andb_true_iff in Hb as [_ Hb].
    by apply IH.
Qed.

(** X6. Two sessions created one after the other, at different readings of
    the clock, get different tokens; when the second sweep comes within the
    lifetime of the first session, both are stored afterwards, each under
    its own token. *)
Theorem two_sessions_in_a_row (first second : string) (w : World) :
  clock_monotone w ->
  0 <= clock w (clockReads w) ->
  clock w (clockReads w) <> clock w (3 + clockReads w)%nat ->
  clock w (5 + clockReads w)%nat <= clock w (1 + clockReads w)%nat + SESSION_DURATION_MS ->
  exists (s1 s2 : Session) (w1 w2 : World),
    createSession first w = (Returned s1, w1) /\
    createSession second w1 = (Returned s2, w2) /\
    sessionId s1 <> sessionId s2 /\
    sessions w2 !! sessionId s1 = Some s1 /\
    sessions w2 !! sessionId s2 = Some s2.
Proof.
  intros Hmono Hpos Hdiff Hlife.
  destruct (createSession_run first w)
    as (s1 & w1 & Hrun1 & Hid1 & _ & _ & He1 & Hs1 & _ & _ & Hc1 & Hr1 & Hrnd1 & Hd1).
  destruct (createSession_run second w1)
    as (s2 & w2 & Hrun2 & Hid2 & _ & _ & He2 & Hs2 & _).
  rewrite Hc1, Hr1 in Hid2, He2, Hs2.
  exists s1, s2, w1, w2. split; [exact Hrun1 |]. split; [exact Hrun2 |].
  assert (Hne : sessionId s1 <> sessionId s2).
  { rewrite Hid1, Hid2. intros Heq. apply Hdiff.
    apply (inj pretty). eapply dashless_prefix; [| | exact Heq].
    - by apply pretty_Z_dashless.
    - apply pretty_Z_dashless. pose proof (Hmono (clockReads w) (3 + clockReads w)%nat). lia. }
  pose proof (Hmono (2 + clockReads w)%nat (5 + clockReads w)%nat) as H25.
  pose proof (Hmono (4 + clockReads w)%nat (5 + clockReads w)%nat) as H45.
  pose proof (Hmono (1 + clockReads w)%nat (4 + clockReads w)%nat) as H14.
  unfold SESSION_DURATION_MS in *. cbn [Nat.add] in *.
  split; [exact Hne |]. split.
  - rewrite Hs2. apply map_lookup_filter_Some. split.
    + rewrite lookup_insert_ne by congruence. rewrite Hs1.
      apply map_lookup_filter_Some. split; [apply lookup_insert_eq |]. cbn. lia.
    + cbn. lia.
  - rewrite Hs2. apply map_lookup_filter_Some. split; [apply lookup_insert_eq |]. cbn. lia.
Qed.

(** Two sessions for ["bob"] on the sample world. *)
Lemma two_sessions_in_a_row_witness :
  clock_monotone sampleWorld /\
  exists (s1 s2 : Session) (w1 w2 : World),
    createSession "bob" sampleWorld = (Returned s1, w1) /\
    createSession "bob" w1 = (Returned s2, w2) /\
    sessionId s1 <> sessionId s2 /\
    sessions w2 !! sessionId s1 = Some s1 /\
    sessions w2 !! sessionId s2 = Some s2.
Proof.
  assert (Hmono : clock_monotone sampleWorld).
  { intros i j Hij. change (clock sampleWorld) with sampleClock.
    unfold sampleClock. lia. }
  split; [exact Hmono |].
  apply (two_sessions_in_a_row "bob" "bob" sampleWorld Hmono).
  - vm_compute. discriminate.
  - vm_compute. discriminate.
  - vm_compute. discriminate.
Defined.

(** The store of the sample world is empty, hence keyed. *)
Lemma store_stays_keyed_witness :
  keyed sampleWorld /\
  (forall principal : string, keyed (createSession principal sampleWorld).2) /\
  (forall token : string, keyed (getSession token sampleWorld).2) /\
  (forall token : string, keyed (deleteSession token sampleWorld).2) /\
  (forall user : string, keyed (deleteUserSessions user sampleWorld).2).
Proof.
  assert (Hkeyed : keyed sampleWorld).
  { intros token s Hin.
    change (sessions sampleWorld) with (∅ : gmap string Session) in Hin.
    rewrite lookup_empty in Hin. discriminate Hin. }
  split; [exact Hkeyed |]. exact (store_stays_keyed sampleWorld Hkeyed).
Defined.

End TokenFacts.

(** ** More on the user store and the handlers *)

Section MoreUserStoreFacts.

Import UserStore.

Lemma createUser_run (u p : string) (w : World) :
  createUser u p w =
    (Returned {| user_username := u; passwordHash := hashPassword p;
                 user_createdAt := clock w (clockReads w) |},
     with_users (insert u {| user_username := u; passwordHash := hashPassword p;
                             user_createdAt := clock w (clockReads w) |}) (tick w)).
Proof. reflexivity. Qed.

(** X7. After [createUser(u, p)] the credentials [(u, p)] verify, a password
    with another hash does not, whatever was stored under [u] before; other
    users and all sessions are untouched. *)
Theorem createUser_then_verifyCredentials (u p : string) (w : World) :
  exists (user : User) (w1 : World),
    createUser u p w = (Returned user, w1) /\
    users w1 !! u = Some user /\
    user_username user = u /\
    verifyCredentials u p w1 = (Returned true, w1) /\
    (forall p' : string,
       hashPassword p' <> hashPassword p -> verifyCredentials u p' w1 = (Returned false, w1)) /\
    (forall other : string, other <> u -> users w1 !! other = users w !! other) /\
    sessions w1 = sessions w.
Proof.
  eexists _, _. split; [apply createUser_run |].
  assert (Hin : users (with_users (insert u
            {| user_username := u; passwordHash := hashPassword p;
               user_createdAt := clock w (clockReads w) |}) (tick w)) !! u
          = Some {| user_username := u; passwordHash := hashPassword p;
                    user_createdAt := clock w (clockReads w) |})
    by (cbn; apply lookup_insert_eq).
  split; [exact Hin |]. split; [reflexivity |]. split.
  - rewrite verifyCredentials_run, Hin. cbn. by rewrite String.eqb_refl.
  - split.
    + intros p' Hne. rewrite verifyCredentials_run, Hin. cbn.
      f_equal. f_equal. apply String.eqb_neq. congruence.
    + split; [| reflexivity]. intros other Hne. cbn. by apply lookup_insert_ne.
Qed.

(** X8. [updatePassword] on an unknown user returns [false] and changes
    nothing. On a stored user it returns [true]; afterwards the new password
    verifies, a password with another hash (the old one, say) does not, the
    user keeps its name and creation time, and other users are untouched. *)
Theorem updatePassword_then_verifyCredentials (u p : string) (w : World) :
  (users w !! u = None -> updatePassword u p w = (Returned false, w)) /\
  (forall user : User,
     users w !! u = Some user ->
     exists w1 : World,
       updatePassword u p w = (Returned true, w1) /\
       users w1 !! u = Some {| user_username := user_username user;
                               passwordHash := hashPassword p;
                               user_createdAt := user_createdAt user |} /\
       verifyCredentials u p w1 = (Returned true, w1) /\
       (forall p' : string,
          hashPassword p' <> hashPassword p ->
          verifyCredentials u p' w1 = (Returned false, w1)) /\
       (forall other : string, other <> u -> users w1 !! other = users w !! other)).
Proof.
  split.
  - intros Hnone. unfold updatePassword. run. rewrite Hnone. reflexivity.
  - intros user Hin.
    assert (Hrun : updatePassword u p w =
              (Returned true,
               with_users (insert u {| user_username := user_username user;
                                       passwordHash := hashPassword p;
                                       user_createdAt := user_createdAt user |}) w)).
    { unfold updatePassword. run. rewrite Hin. reflexivity. }
    eexists. split; [exact Hrun |].
    assert (Hnew : users (with_users (insert u
              {| user_username := user_username user; passwordHash := hashPassword p;
                 user_createdAt := user_createdAt user |}) w) !! u
            = Some {| user_username := user_username user; passwordHash := hashPassword p;
                      user_createdAt := user_createdAt user |})
      by (cbn; apply lookup_insert_eq).
    split; [exact Hnew |]. split.
    + rewrite verifyCredentials_run, Hnew. cbn. by rewrite String.eqb_refl.
    + split.
      * intros p' Hne. rewrite verifyCredentials_run, Hnew. cbn.
        f_equal. f_equal. apply String.eqb_neq. congruence.
      * intros other Hne. cbn. by apply lookup_insert_ne.
Qed.

(** X9. [deleteUser] reports whether the user was stored; afterwards no
    password verifies for that name. Other users are untouched, and so is
    the session store: sessions of the deleted user stay. *)
Theorem deleteUser_then_verifyCredentials (u : string) (w : World) :
  exists w1 : World,
    deleteUser u w = (Returned (bool_decide (is_Some (users w !! u))), w1) /\
    (forall p : string, verifyCredentials u p w1 = (Returned false, w1)) /\
    (forall other : string, other <> u -> users w1 !! other = users w !! other) /\
    sessions w1 = sessions w.
Proof.
  exists (with_users (delete u) w). split; [reflexivity |]. split.
  - intros p. rewrite verifyCredentials_run. cbn. by rewrite lookup_delete_eq.
  - split; [| reflexivity]. intros other Hne. cbn. by apply lookup_delete_ne.
Qed.



End MoreUserStoreFacts.

(** ** Logging in, checking and logging out *)

Section SessionHandlersFacts.

Import SessionStore.

Lemma dash_in_the_middle (a b : string) : is_empty (a +:+ "-" +:+ b) = false.
Proof. destruct a; reflexivity. Qed.

(** On a payload that carries a string as its [sessionId],
    [checkAuthHandler] returns. It reports [authenticated: true], with the
    name of the session's user, exactly when the payload names a stored
    session that has not expired; otherwise it reports
    [authenticated: false] without a user name. It touches no user. *)
Lemma checkAuthHandler_typed (p : CheckAuthPayload) (w : World) :
  exists (r : CheckAuthResponse) (w1 : World),
    checkAuthHandler p w = (Returned r, w1) /\
    (authenticated r = true <->
       check_sessionId p <> "" /\
       exists s : Session,
         sessions w !! check_sessionId p = Some s /\ clock w (clockReads w) <= expiresAt s) /\
    (forall s : Session,
       authenticated r = true -> sessions w !! check_sessionId p = Some s ->
       check_username r = Some (username s)) /\
    (authenticated r = false -> check_username r = None) /\
    users w1 = users w.
Proof.
  unfold checkAuthHandler.
  destruct (String.eqb_spec (check_sessionId p) "") as [Hsid | Hsid].
  - unfold is_empty. rewrite Hsid. cbn.
    eexists _, _. split; [reflexivity |]. cbn.
    split; [split; [discriminate | intros [H _]; contradiction] |].
    split; [discriminate |]. split; reflexivity.
  - rewrite (is_empty_false _ Hsid). run.
    destruct (sessions w !! check_sessionId p) as [s |] eqn:Hin.
    + destruct (Z_lt_le_dec (expiresAt s) (clock w (clockReads w))) as [Hlt | Hle].
      * rewrite (getSession_expired _ _ _ Hin Hlt).
        eexists _, _. split; [reflexivity |]. cbn.
        split; [split; [discriminate | intros (_ & s' & Hs' & Hle); inversion Hs'; subst; lia] |].
        split; [discriminate |]. split; reflexivity.
      * rewrite (getSession_live _ _ _ Hin Hle).
        eexists _, _. split; [reflexivity |]. cbn.
        split; [split; [intros _; split; [exact Hsid | by exists s] | reflexivity] |].
        split; [intros s' _ Hs'; by inversion Hs' |]. split; [discriminate | reflexivity].
    + rewrite (getSession_absent _ _ Hin).
      eexists _, _. split; [reflexivity |]. cbn.
      split; [split; [discriminate | intros (_ & s' & Hs' & _); discriminate Hs'] |].
      split; [discriminate |]. split; reflexivity.
Qed.

(** X12. The session id a successful login returns is accepted by
    [checkAuthHandler], which reports the user that logged in, at every later
    reading of the clock within seven days of the login. *)
Theorem login_then_checkAuth (p : LoginPayload) (user : User) (w : World) :
  clock_monotone w ->
  login_username p <> "" -> login_password p <> "" ->
  users w !! login_username p = Some user ->
  passwordHash user = UserStore.hashPassword (login_password p) ->
  exists (r : LoginResponse) (w1 : World),
    loginHandler p w = (Returned r, w1) /\
    response_username r = login_username p /\
    forall w' : World,
      sessions w' = sessions w1 -> clock w' = clock w -> (clockReads w1 <= clockReads w')%nat ->
      clock w' (clockReads w') <= clock w (S (clockReads w)) + SESSION_DURATION_MS ->
      checkAuthHandler {| check_sessionId := response_sessionId r |} w'
        = (Returned {| authenticated := true; check_username := Some (login_username p) |},
           tick w').
Proof.
  intros Hmono Hu Hp Huser Hhash.
  destruct (loginHandler_accepts p user w Hu Hp Huser Hhash) as (s & w1 & Hcreate & Hlogin).
  destruct (createSession_run (login_username p) w)
    as (s' & w1' & Hrun & Hid & Hname & _ & He & Hs & _ & _ & _ & Hr & _).
  rewrite Hcreate in Hrun. inversion Hrun; subst s' w1'.
  exists (LoginResponse_of s), w1. split; [exact Hlogin |]. split; [exact Hname |].
  intros w' Hsess Hclock Hreads Hnow.
  assert (Hne : is_empty (sessionId s) = false) by (rewrite Hid; apply dash_in_the_middle).
  unfold checkAuthHandler. cbn [check_sessionId LoginResponse_of response_sessionId].
  rewrite Hne. run.
  assert (Hin : sessions w' !! sessionId s = Some s).
  { rewrite Hsess, Hs. apply map_lookup_filter_Some. split; [apply lookup_insert_eq |].
    cbn. rewrite Hclock in Hnow.
    pose proof (Hmono (S (S (clockReads w))) (clockReads w')). lia. }
  rewrite (getSession_live _ _ _ Hin) by lia.
  unfold CheckAuthResponse_of. rewrite Hname. reflexivity.
Qed.

(** ["admin"] logs in on the sample world and checks the session. *)
Lemma login_then_checkAuth_witness :
  clock_monotone sampleWorld /\
  exists (r : LoginResponse) (w1 : World),
    loginHandler {| login_username := "admin"; login_password := "admin" |} sampleWorld
      = (Returned r, w1) /\
    response_username r = "admin" /\
    forall w' : World,
      sessions w' = sessions w1 -> clock w' = clock sampleWorld ->
      (clockReads w1 <= clockReads w')%nat ->
      clock w' (clockReads w') <= clock sampleWorld (S (clockReads sampleWorld))
                                  + SESSION_DURATION_MS ->
      checkAuthHandler {| check_sessionId := response_sessionId r |} w'
        = (Returned {| authenticated := true; check_username := Some "admin" |}, tick w').
Proof.
  assert (Hmono : clock_monotone sampleWorld).
  { intros i j Hij. change (clock sampleWorld) with sampleClock.
    unfold sampleClock. lia. }
  split; [exact Hmono |].
  refine (login_then_checkAuth {| login_username := "admin"; login_password := "admin" |}
            {| user_username := "admin"; passwordHash := UserStore.hashPassword "admin";
               user_createdAt := 1700000000000 |}
            sampleWorld Hmono _ _ _ _).
  - discriminate.
  - discriminate.
  - vm_compute. reflexivity.
  - reflexivity.
Defined.

(** X13. [logoutHandler] throws on an empty session id and changes nothing.
    On any other id, stored or not, it returns and removes the id from the
    store; afterwards [checkAuthHandler] reports [authenticated: false] for
    it. *)
Theorem logout_then_checkAuth (sid : string) (w : World) :
  (sid = "" ->
     logoutHandler {| logout_sessionId := sid |} w
       = (Threw (JsError "Session ID is required"), w)) /\
  (sid <> "" ->
     exists w1 : World,
       logoutHandler {| logout_sessionId := sid |} w = (Returned tt, w1) /\
       sessions w1 = delete sid (sessions w) /\
       users w1 = users w /\
       checkAuthHandler {| check_sessionId := sid |} w1
         = (Returned {| authenticated := false; check_username := None |}, w1)).
Proof.
  split.
  - intros ->. reflexivity.
  - intros Hne. exists (with_sessions (delete sid) w).
    assert (Hrun : logoutHandler {| logout_sessionId := sid |} w
                   = (Returned tt, with_sessions (delete sid) w)).
    { unfold logoutHandler. cbn [logout_sessionId]. rewrite (is_empty_false _ Hne). reflexivity. }
    split; [exact Hrun |]. split; [reflexivity |]. split; [reflexivity |].
    unfold checkAuthHandler. cbn [check_sessionId]. rewrite (is_empty_false _ Hne). run.
    rewrite getSession_absent by (cbn; apply lookup_delete_eq). reflexivity.
Qed.

End SessionHandlersFacts.

(** ** The middleware and the gates *)

Section MiddlewareFacts.

Context `{D : Deployment}.

Import SessionStore.

(** X14. For an operation that is not public, the authentication gate of
    [executeHandler] is [requireAuth]: it replies what [requireAuth] replies
    and lets the call through exactly when [requireAuth] calls [next()]. *)
Theorem gate_is_requireAuth (messageName : string) (req : Request) (w : World) :
  messageName ∉ publicHandlers ->
  authenticationGate messageName req w =
    (m ← requireAuth req;
     mret match m with
          | Reply r => Some r
          | Next _ => None
          end) w.
Proof.
  intros Hout. unfold authenticationGate, requireAuth.
  rewrite bool_decide_eq_false_2 by exact Hout.
  destruct (x_session_id req) as [sid |]; [| reflexivity].
  destruct (is_empty sid); [reflexivity |]. run.
  destruct (getSession sid w) as [[[s |] | e] w']; reflexivity.
Qed.

(** X15. [optionalAuth] never replies: it always calls [next()]. It leaves
    the world as [requireAuth] does, and attaches a session exactly when
    [requireAuth] does, the same one. *)
Theorem optionalAuth_never_rejects (req : Request) (w : World) :
  exists (attached : option RequestSession) (w1 : World),
    optionalAuth req w = (Returned (Next attached), w1) /\
    ((exists r : Response, requireAuth req w = (Returned (Reply r), w1) /\ attached = None) \/
     (requireAuth req w = (Returned (Next attached), w1) /\ is_Some attached)).
Proof.
  unfold optionalAuth, requireAuth.
  destruct (x_session_id req) as [sid |]; [| eexists _, _; split; [reflexivity | left; eauto]].
  destruct (is_empty sid); [eexists _, _; split; [reflexivity | left; eauto] |]. run.
  destruct (getSession_cases sid w) as [(w' & -> & _) | (s & -> & _ & _)].
  - eexists _, _. split; [reflexivity | left; eauto].
  - eexists _, _. split; [reflexivity | right; eauto].
Qed.

(** What [executeHandler] does once the gates are passed. *)
Lemma executeHandler_passed (messageName : string) (h : Handler) (payload : option JValue)
    (req : Request) (w w1 : World) :
  rendererHandlers messageName = Some h ->
  gates messageName req w = (Returned None, w1) ->
  executeHandler messageName payload req w =
    let argument := if hasPayload payload then payload else None in
    match h argument w1 with
    | (Returned result, w2) => (replied (succeeded result) [argument], w2)
    | (Threw error, w2) => (replied (caught error) [argument], w2)
    end.
Proof. intros Hreg Hgates. unfold executeHandler. rewrite Hreg, Hgates. reflexivity. Qed.

Lemma gates_public (messageName : string) (req : Request) (w : World) :
  messageName ∈ publicHandlers -> gates messageName req w = (Returned None, w).
Proof.
  intros Hin. unfold gates. run.
  rewrite (authenticationGate_public _ _ _ Hin), databaseGate_run.
  rewrite bool_decide_eq_true_2 by (by apply public_without_database). reflexivity.
Qed.

Lemma gates_admitted (messageName sid : string) (s : Session) (req : Request) (w : World) :
  messageName ∉ publicHandlers ->
  x_session_id req = Some sid -> sid <> "" ->
  sessions w !! sid = Some s -> clock w (clockReads w) <= expiresAt s ->
  messageName ∈ handlersWithoutDatabase \/ databaseConnected w = true ->
  gates messageName req w = (Returned None, tick w).
Proof.
  intros Hout Hsid Hne Hin Hnow Hdb. unfold gates. run.
  rewrite (authenticationGate_admits _ _ _ _ _ Hout Hsid Hne Hin Hnow), databaseGate_run.
  destruct Hdb as [Hex | Hdb].
  - rewrite bool_decide_eq_true_2 by exact Hex. reflexivity.
  - change (databaseConnected (tick w)) with (databaseConnected w). rewrite Hdb.
    destruct (bool_decide _); reflexivity.
Qed.

(** X16. A registered public operation always reaches its handler, once,
    whatever the session header and whether or not the database is
    connected; the reply is 200 with the result, or 500 with the error the
    handler threw. *)
Theorem public_call_reaches_handler (messageName : string) (h : Handler)
    (payload : option JValue) (req : Request) (w : World) :
  rendererHandlers messageName = Some h ->
  messageName ∈ publicHandlers ->
  executeHandler messageName payload req w =
    let argument := if hasPayload payload then payload else None in
    match h argument w with
    | (Returned result, w2) => (replied (succeeded result) [argument], w2)
    | (Threw error, w2) => (replied (caught error) [argument], w2)
    end.
Proof.
  intros Hreg Hin. apply executeHandler_passed; [exact Hreg | by apply gates_public].
Qed.

(** X17. Only a non-empty object or a non-empty array is passed to a
    handler: a call with any other payload (a string, a number, a boolean,
    [null], [{}], [[]]) is dispatched exactly as a call without payload. *)
Theorem only_nonempty_objects_are_payloads (messageName : string) (payload : option JValue)
    (req : Request) (w : World) :
  (hasPayload payload = true <->
     (exists f fields, payload = Some (JObj (f :: fields))) \/
     (exists i items, payload = Some (JArr (i :: items)))) /\
  (hasPayload payload = false ->
     executeHandler messageName payload req w = executeHandler messageName None req w).
Proof.
  split.
  - unfold hasPayload.
    destruct payload as [[| b | n | s | [| i items] | [| f fields]] |]; cbn;
      rewrite ?andb_false_r;
      (split; [intros H; try discriminate H; eauto
              | intros [(? & ? & H) | (? & ? & H)]; try discriminate H; reflexivity]).
  - intros Hno. unfold executeHandler. rewrite Hno. reflexivity.
Qed.

(** X18. A protected operation called with the token of a stored session
    that has expired is answered 401 "Invalid or expired session", its
    handler is not invoked, and the session is removed from the store. *)
Theorem expired_session_is_purged (messageName sid : string) (h : Handler) (s : Session)
    (payload : option JValue) (req : Request) (w : World) :
  rendererHandlers messageName = Some h ->
  messageName ∉ publicHandlers ->
  x_session_id req = Some sid -> sid <> "" ->
  sessions w !! sid = Some s -> expiresAt s < clock w (clockReads w) ->
  exists w1 : World,
    executeHandler messageName payload req w
      = (replied (unauthorized "Invalid or expired session") [], w1) /\
    sessions w1 = delete sid (sessions w) /\
    users w1 = users w.
Proof.
  intros Hreg Hout Hsid Hne Hin Hnow.
  exists (with_sessions (delete sid) (tick w)). split; [| split; reflexivity].
  unfold executeHandler, gates, authenticationGate. rewrite Hreg.
  rewrite bool_decide_eq_false_2 by exact Hout.
  rewrite Hsid, (is_empty_false _ Hne). run.
  rewrite (getSession_expired _ _ _ Hin Hnow). reflexivity.
Qed.

(** X19. A registered protected operation, called with the token of a live
    session while the database is connected (or for an operation that does
    not need it), reaches its handler once, in the world after the one clock
    reading of the gate. *)
Theorem authenticated_call_reaches_handler (messageName sid : string) (h : Handler)
    (s : Session) (payload : option JValue) (req : Request) (w : World) :
  rendererHandlers messageName = Some h ->
  messageName ∉ publicHandlers ->
  x_session_id req = Some sid -> sid <> "" ->
  sessions w !! sid = Some s -> clock w (clockReads w) <= expiresAt s ->
  messageName ∈ handlersWithoutDatabase \/ databaseConnected w = true ->
  executeHandler messageName payload req w =
    let argument := if hasPayload payload then payload else None in
    match h argument (tick w) with
    | (Returned result, w2) => (replied (succeeded result) [argument], w2)
    | (Threw error, w2) => (replied (caught error) [argument], w2)
    end.
Proof.
  intros Hreg Hout Hsid Hne Hin Hnow Hdb.
  apply executeHandler_passed; [exact Hreg | by eapply gates_admitted].
Qed.

(** X20. The session id in the reply to a successful login dispatch
    authenticates later calls: a protected operation called with it in the
    [X-Session-Id] header, within seven days and with the database
    connected, reaches its handler. *)
Theorem login_token_authenticates (h hop : Handler) (operation : string) (p : LoginPayload)
    (user : User) (req : Request) (payload : option JValue) (w : World) :
  rendererHandlers Login = Some h ->
  implements LoginPayload_json (fun r => Some (LoginResponse_json r)) h loginHandler ->
  rendererHandlers operation = Some hop ->
  operation ∉ publicHandlers ->
  clock_monotone w ->
  login_username p <> "" -> login_password p <> "" ->
  users w !! login_username p = Some user ->
  passwordHash user = UserStore.hashPassword (login_password p) ->
  exists (token : string) (w1 : World),
    executeHandler Login (Some (LoginPayload_json p)) req w =
      (replied (succeeded (Some (JObj [("success", JBool true); ("sessionId", JStr token);
                                       ("username", JStr (login_username p))])))
               [Some (LoginPayload_json p)], w1) /\
    forall w' : World,
      sessions w' = sessions w1 -> clock w' = clock w -> (clockReads w1 <= clockReads w')%nat ->
      clock w' (clockReads w') <= clock w (S (clockReads w)) + SESSION_DURATION_MS ->
      databaseConnected w' = true ->
      handlerCalls (executeHandler operation payload (withSession token None) w').1
        = [if hasPayload payload then payload else None].
Proof.
  intros Hreg Himpl Hop Hout Hmono Hu Hp Huser Hhash.
  destruct (loginHandler_accepts p user w Hu Hp Huser Hhash) as (s & w1 & Hcreate & Hlogin).
  destruct (createSession_run (login_username p) w)
    as (s' & w1' & Hrun & Hid & Hname & _ & He & Hs & _ & _ & _ & Hr & _).
  rewrite Hcreate in Hrun. inversion Hrun; subst s' w1'.
  exists (sessionId s), w1. split.
  - rewrite (executeHandler_login h p req w Hreg Himpl), Hlogin.
    unfold LoginResponse_json, LoginResponse_of. cbn. rewrite Hname. reflexivity.
  - intros w' Hsess Hclock Hreads Hnow Hdb.
    assert (Hin : sessions w' !! sessionId s = Some s).
    { rewrite Hsess, Hs. apply map_lookup_filter_Some. split; [apply lookup_insert_eq |].
      cbn. rewrite Hclock in Hnow.
      pose proof (Hmono (S (S (clockReads w))) (clockReads w')). lia. }
    assert (Hne : sessionId s <> "").
    { intros Hempty. pose proof (dash_in_the_middle
        (pretty (clock w (clockReads w)))
        (random w (randomDraws w) +:+ "-" +:+ random w (S (randomDraws w)))) as Hd.
      rewrite <- Hid, Hempty in Hd. discriminate Hd. }
    rewrite (executeHandler_passed operation hop payload (withSession (sessionId s) None)
               w' (tick w') Hop).
    + cbn zeta. destruct (hop _ (tick w')) as [[result | e] w2]; reflexivity.
    + eapply gates_admitted; [exact Hout | reflexivity | exact Hne | exact Hin | lia | by right].
Qed.

End MiddlewareFacts.

(** ** The gates on the sample deployment *)

Section GatesOnTheSample.

Existing Instance sample.

Lemma readyWorld_live : clock readyWorld (clockReads readyWorld) <= expiresAt sampleSession.
Proof. vm_compute. discriminate. Qed.

(** The gate on ["echo"], called with the token of the sample session. *)
Lemma gate_is_requireAuth_witness :
  ("echo" ∉ publicHandlers) /\
  authenticationGate "echo" (withSession sampleToken None) loggedIn =
    (m ← requireAuth (withSession sampleToken None);
     mret match m with
          | Reply r => Some r
          | Next _ => None
          end) loggedIn.
Proof.
  split; [exact echo_is_protected |].
  exact (gate_is_requireAuth "echo" (withSession sampleToken None) loggedIn echo_is_protected).
Defined.

(** connect-database dispatched without a session, the database being down. *)
Lemma public_call_reaches_handler_witness :
  databaseConnected sampleWorld = false /\
  executeHandler "connect-database" None (anonymous None) sampleWorld =
    match connectDatabase None sampleWorld with
    | (Returned result, w2) => (replied (succeeded result) [None], w2)
    | (Threw error, w2) => (replied (caught error) [None], w2)
    end.
Proof.
  split; [reflexivity |].
  apply (public_call_reaches_handler "connect-database" connectDatabase None
           (anonymous None) sampleWorld).
  - reflexivity.
  - apply publicHandlers_spec. right; left. reflexivity.
Defined.

(** ["echo"] called long after the login, with the token of the session. *)
Lemma expired_session_is_purged_witness :
  sessions staleWorld !! sampleToken = Some sampleSession /\
  expiresAt sampleSession < clock staleWorld (clockReads staleWorld) /\
  exists w1 : World,
    executeHandler "echo" None (withSession sampleToken None) staleWorld
      = (replied (unauthorized "Invalid or expired session") [], w1) /\
    sessions w1 = delete sampleToken (sessions staleWorld) /\
    users w1 = users staleWorld.
Proof.
  assert (Hlate : expiresAt sampleSession < clock staleWorld (clockReads staleWorld))
    by (vm_compute; reflexivity).
  split; [exact loggedIn_session |]. split; [exact Hlate |].
  apply (expired_session_is_purged "echo" sampleToken echo sampleSession None
           (withSession sampleToken None) staleWorld).
  - reflexivity.
  - exact echo_is_protected.
  - reflexivity.
  - discriminate.
  - exact loggedIn_session.
  - exact Hlate.
Defined.

(** ["echo"] called with the token of the sample session, the database being
    connected. *)
Lemma authenticated_call_reaches_handler_witness :
  databaseConnected readyWorld = true /\
  executeHandler "echo" (Some (JObj [("a", JNum 1)])) (withSession sampleToken None) readyWorld =
    (replied (succeeded (Some (JObj [("a", JNum 1)]))) [Some (JObj [("a", JNum 1)])],
     tick readyWorld).
Proof.
  split; [reflexivity |].
  apply (authenticated_call_reaches_handler "echo" sampleToken echo sampleSession
           (Some (JObj [("a", JNum 1)])) (withSession sampleToken None) readyWorld).
  - reflexivity.
  - exact echo_is_protected.
  - reflexivity.
  - discriminate.
  - exact loggedIn_session.
  - exact readyWorld_live.
  - right. reflexivity.
Defined.

(** ["admin"] logs in on the sample world; the token then opens ["echo"]. *)
Lemma login_token_authenticates_witness :
  clock_monotone sampleWorld /\
  exists (token : string) (w1 : World),
    executeHandler Login
        (Some (LoginPayload_json {| login_username := "admin"; login_password := "admin" |}))
        (anonymous None) sampleWorld =
      (replied (succeeded (Some (JObj [("success", JBool true); ("sessionId", JStr token);
                                       ("username", JStr "admin")])))
               [Some (LoginPayload_json {| login_username := "admin"; login_password := "admin" |})],
       w1) /\
    forall w' : World,
      sessions w' = sessions w1 -> clock w' = clock sampleWorld ->
      (clockReads w1 <= clockReads w')%nat ->
      clock w' (clockReads w') <= clock sampleWorld (S (clockReads sampleWorld))
                                  + SessionStore.SESSION_DURATION_MS ->
      databaseConnected w' = true ->
      handlerCalls (executeHandler "echo" (Some (JObj [("a", JNum 1)]))
                      (withSession token None) w').1
        = [Some (JObj [("a", JNum 1)])].
Proof.
  assert (Hmono : clock_monotone sampleWorld).
  { intros i j Hij. change (clock sampleWorld) with sampleClock.
    unfold sampleClock. lia. }
  split; [exact Hmono |].
  refine (login_token_authenticates _ echo "echo"
            {| login_username := "admin"; login_password := "admin" |}
            {| user_username := "admin"; passwordHash := UserStore.hashPassword "admin";
               user_createdAt := 1700000000000 |}
            (anonymous None) (Some (JObj [("a", JNum 1)])) sampleWorld
            eq_refl sample_login_entry eq_refl echo_is_protected Hmono _ _ _ _).
  - discriminate.
  - discriminate.
  - vm_compute. reflexivity.
  - reflexivity.
Defined.

End GatesOnTheSample.

(** ** The upload route *)

Section UploadFacts.

Context `{D : Deployment}.

Variable WriteBase64File : string.

Lemma prefix_append (sub rest : string) : String.prefix sub (sub +:+ rest) = true.
Proof.
  induction sub as [| c sub IH]; simpl; [by destruct rest |].
  destruct (ascii_dec c c) as [_ | Hne]; [exact IH | contradiction].
Qed.

Lemma includes_unfold (sub s : string) :
  includes sub s =
    String.prefix sub s ||
    match s with
    | EmptyString => false
    | String _ rest => includes sub rest
    end.
Proof. destruct s; reflexivity. Qed.

Lemma includes_middle (sub before after : string) :
  includes sub (before +:+ sub +:+ after) = true.
Proof.
  induction before as [| c before IH].
  - change ("" +:+ sub +:+ after) with (sub +:+ after).
    rewrite includes_unfold, prefix_append. reflexivity.
  - change (String c before +:+ sub +:+ after) with (String c (before +:+ sub +:+ after)).
    rewrite includes_unfold, IH. apply orb_true_r.
Qed.

(** X21. An upload whose [filePath] is a string with [..] or [//] anywhere
    in it is answered 400, the handler is not invoked and nothing changes. *)
Theorem upload_rejects_dangerous_paths (body : JValue) (before after : string) (w : World) :
  field "filePath" body = Some (JStr (before +:+ ".." +:+ after)) \/
  field "filePath" body = Some (JStr (before +:+ "//" +:+ after)) ->
  exists message : string,
    uploadBase64 WriteBase64File body w = (replied (badRequest message) [], w) /\
    status (badRequest message) = 400.
Proof.
  intros Hpath. unfold uploadBase64.
  destruct (field "data" body) as [dataValue |] eqn:Hdata.
  - destruct (truthy (Some dataValue)) eqn:Hd.
    + exists "Invalid file path". split; [| reflexivity].
      destruct Hpath as [-> | ->].
      * replace (truthy (Some (JStr (before +:+ ".." +:+ after)))) with true
          by (destruct before; reflexivity).
        cbn [negb orb]. unfold dangerous, includes_of. run.
        rewrite includes_middle. reflexivity.
      * replace (truthy (Some (JStr (before +:+ "//" +:+ after)))) with true
          by (destruct before; reflexivity).
        cbn [negb orb]. unfold dangerous, includes_of. run.
        destruct (includes ".." _); [reflexivity |].
        rewrite includes_middle. reflexivity.
    + exists "filePath and data are required". split; [| reflexivity].
      destruct Hpath as [-> | ->]; cbn [negb]; rewrite orb_true_r; reflexivity.
  - exists "filePath and data are required". split; [| reflexivity].
    destruct Hpath as [-> | ->]; reflexivity.
Qed.

(** X22. The upload route does not ask for a session: for a well-formed
    upload it invokes the [WriteBase64File] handler, while the same payload
    dispatched to that operation through [executeHandler] without a session
    header is answered 401 and the handler is not invoked. *)
Theorem upload_needs_no_session (h : Handler) (path data : string) (req : Request) (w : World) :
  rendererHandlers WriteBase64File = Some h ->
  WriteBase64File ∉ publicHandlers ->
  x_session_id req = None ->
  path <> "" -> data <> "" ->
  includes ".." path = false -> includes "//" path = false ->
  let body := JObj [("filePath", JStr path); ("data", JStr data)] in
  (exists w1 : World,
     executeHandler WriteBase64File (Some body) req w
       = (replied (unauthorized "Authentication required") [], w1)) /\
  uploadBase64 WriteBase64File body w =
    match h (Some body) w with
    | (Returned _, w2) => (replied (succeeded None) [Some body], w2)
    | (Threw error, w2) => (replied (caught error) [Some body], w2)
    end.
Proof.
  intros Hreg Hout Hreq Hpath Hdata Hdots Hslashes body. split.
  - exists w. unfold executeHandler, gates, authenticationGate. rewrite Hreg.
    rewrite bool_decide_eq_false_2 by exact Hout. rewrite Hreq. reflexivity.
  - unfold uploadBase64, body. cbn [field assoc String.eqb Ascii.eqb Bool.eqb truthy].
    fold (is_empty path). fold (is_empty data).
    rewrite (is_empty_false _ Hpath), (is_empty_false _ Hdata). cbn [negb orb].
    unfold dangerous, includes_of. run. rewrite Hdots, Hslashes, Hreg.
    reflexivity.
Qed.

End UploadFacts.

(** ** The upload route on the sample deployment *)

Section UploadsOnTheSample.

Existing Instance sampleWithUploads.

(** An upload that tries to leave the folder. *)
Lemma upload_rejects_dangerous_paths_witness :
  exists message : string,
    uploadBase64 "write-base64-file"
        (JObj [("filePath", JStr "../etc/passwd"); ("data", JStr "eA==")]) sampleWorld
      = (replied (badRequest message) [], sampleWorld) /\
    status (badRequest message) = 400.
Proof.
  apply (upload_rejects_dangerous_paths "write-base64-file"
           (JObj [("filePath", JStr "../etc/passwd"); ("data", JStr "eA==")])
           "" "/etc/passwd" sampleWorld).
  left. reflexivity.
Defined.

(** An upload without a session header. *)
Lemma upload_needs_no_session_witness :
  (exists w1 : World,
     executeHandler "write-base64-file"
         (Some (JObj [("filePath", JStr "notes.json"); ("data", JStr "eA==")]))
         (anonymous None) sampleWorld
       = (replied (unauthorized "Authentication required") [], w1)) /\
  uploadBase64 "write-base64-file"
      (JObj [("filePath", JStr "notes.json"); ("data", JStr "eA==")]) sampleWorld =
    (replied (succeeded None)
       [Some (JObj [("filePath", JStr "notes.json"); ("data", JStr "eA==")])], sampleWorld).
Proof.
  apply (upload_needs_no_session "write-base64-file" writeBase64File "notes.json" "eA=="
           (anonymous None) sampleWorld).
  - reflexivity.
  - rewrite publicHandlers_spec. cbn. intros [H | [H | [H | H]]]; discriminate H.
  - reflexivity.
  - discriminate.
  - discriminate.
  - reflexivity.
  - reflexivity.
Defined.

End UploadsOnTheSample.

(** ** More on the client *)

Section MoreClientFacts.

Context `{D : Deployment}.

(** The call of [fetch] that [request] makes. *)
Lemma request_call (endpoint verb : string) (content : option JValue) (b : Browser) :
  exists (r : ApiResult) (b' : Browser),
    request endpoint verb content b = (Returned r, b') /\
    fetched b' =
      (fetched b ++ [{| url := baseUrl b +:+ endpoint; method := verb;
                        headers := headers_for (client_sessionId b);
                        fetch_body := content |}])%list /\
    baseUrl b' = baseUrl b /\ client_sessionId b' = client_sessionId b.
Proof.
  unfold request, fetch, property, headers_for. run.
  destruct (client_sessionId b) as [s |]; [destruct (is_empty s) |];
    (destruct (network b (length (fetched b)) _) as [m | [|] st stt [m | v]];
     try destruct v; cbn; eexists _, _; repeat split; reflexivity).
Qed.

(** X23. The session id given to [setSessionId] is what [getSessionId]
    returns; a non-empty one survives a reload of the page, an empty one or
    [null] clears the stored one; and every request made after the reload
    carries the id in the [X-Session-Id] header, or no such header when
    there is none. *)
Theorem session_id_survives_reload (sid : option string) (p : Page)
    (endpoint verb : string) (content : option JValue) :
  let kept := match sid with
              | Some s => if is_empty s then None else Some s
              | None => None
              end in
  getSessionId (setSessionId sid p) = sid /\
  getSessionId (reload (setSessionId sid p)) = kept /\
  exists (r : ApiResult) (b' : Browser),
    request endpoint verb content (browser (reload (setSessionId sid p))) = (Returned r, b') /\
    fetched b' =
      (fetched (browser p) ++
       [{| url := baseUrl (browser p) +:+ endpoint; method := verb;
           headers := ("Content-Type", "application/json") ::
                      match kept with
                      | Some s => [("X-Session-Id", s)]
                      | None => []
                      end;
           fetch_body := content |}])%list.
Proof.
  intros kept. split; [reflexivity |].
  assert (Hkept : getSessionId (reload (setSessionId sid p)) = kept).
  { unfold getSessionId, reload, HttpClient_new, setSessionId, kept. cbn.
    destruct sid as [s |]; [destruct (is_empty s) |].
    - apply lookup_delete_eq.
    - apply lookup_insert_eq.
    - apply lookup_delete_eq. }
  split; [exact Hkept |].
  destruct (request_call endpoint verb content (browser (reload (setSessionId sid p))))
    as (r & b' & Hrun & Hlog & _).
  exists r, b'. split; [exact Hrun |]. rewrite Hlog.
  unfold getSessionId in Hkept. rewrite Hkept. unfold headers_for, kept. cbn.
  destruct sid as [s |]; [destruct (is_empty s) eqn:Hs |]; cbn; rewrite ?Hs; reflexivity.
Qed.

(** The replies of [executeHandler]. *)
Lemma executeHandler_reply_forms (messageName : string) (payload : option JValue)
    (req : Request) (w : World) :
  let r := response (executeHandler messageName payload req w).1 in
  r = handlerNotFound messageName \/ (exists m, r = unauthorized m) \/
  r = databaseNotConnected \/ (exists result, r = succeeded result) \/
  (exists e, r = caught e).
Proof.
  unfold executeHandler.
  destruct (rendererHandlers messageName) as [h |]; [| by left].
  destruct (gates_cases messageName req w) as (g & w1 & -> & [-> | [[m ->] | ->]]).
  - destruct (h _ w1) as [[result | e] w2]; cbn.
    + do 3 right. left. by exists result.
    + do 4 right. by exists e.
  - right; left. by exists m.
  - do 2 right. by left.
Qed.

(** X24. What the caller of [send] sees of a reply of the server: for 200,
    the [data] of the envelope, or the envelope itself when it has no
    [data]; for 401, 404 and 503, [ErrorCode.UnknownError], whatever the
    reason; for 500, where the reply is the one of the [catch] block for the
    error [e] the handler threw, the code in the [error] field of that reply,
    [getErrorCodeFromError e], unless it is 0, in which case
    [ErrorCode.UnknownError]. *)
Theorem send_sees_the_server (message : SendableMessage) (b : Browser) (statusText : string)
    (verb : Verb) (messageName : string) (req : Request) (w : World) :
  let r := response (route verb messageName req w).1 in
  (forall call : FetchCall, network b (length (fetched b)) call = over_the_wire statusText r) ->
  let out := (HybridApiClient_send message b).1 in
  (status r = 200 ->
     out = Returned match field "data" (json r) with
                    | Some data => data
                    | None => json r
                    end) /\
  (status r = 401 \/ status r = 404 \/ status r = 503 ->
     out = Threw (JsValue (JNum UnknownError))) /\
  (status r = 500 ->
     exists e : Thrown,
       r = caught e /\
       field "error" (json r) = Some (JNum (getErrorCodeFromError e)) /\
       out = Threw (JsValue (JNum (if getErrorCodeFromError e =? 0 then UnknownError
                                   else getErrorCodeFromError e)))).
Proof.
  intros r Hnet out.
  assert (Hforms : r = handlerNotFound messageName \/ (exists m, r = unauthorized m) \/
                   r = databaseNotConnected \/ (exists result, r = succeeded result) \/
                   (exists e, r = caught e)).
  { unfold r. destruct verb; cbn [route]; apply executeHandler_reply_forms. }
  clearbody r.
  assert (Hout : out =
    (let reply := over_the_wire statusText r in
     match reply with
     | FetchResponse true _ _ (inr data) =>
         match data with
         | JNull => Threw (JsValue (JNum UnknownError))
         | _ => Returned match field "data" data with Some v => v | None => data end
         end
     | FetchResponse false _ _ (inr errorData) =>
         match errorData with
         | JNull => Threw (JsValue (JNum UnknownError))
         | _ => match or_else (field "error" errorData) (JNum UnknownError) with
                | JNum n => Threw (JsValue (JNum n))
                | _ => Threw (JsValue (JNum UnknownError))
                end
         end
     | _ => Threw (JsValue (JNum UnknownError))
     end)).
  { unfold out, HybridApiClient_send, HttpApiClient_send, callHandler, post, request,
      fetch, property. run. rewrite Hnet. unfold over_the_wire.
    destruct ((200 <=? status r) && (status r <? 300)); destruct (json r) as [| | | | |fs]; cbn;
      try reflexivity;
      try (destruct (or_else _ _); reflexivity). }
  rewrite Hout. clear Hout Hnet out.
  destruct Hforms as [-> | [[m ->] | [-> | [[result ->] | [e ->]]]]]; cbn.
  - split; [discriminate |]. split; [reflexivity | discriminate].
  - split; [discriminate |]. split; [reflexivity | discriminate].
  - split; [discriminate |]. split; [| discriminate]. intros _.
    unfold or_else. cbn. destruct (Z.eqb UnknownError 0); reflexivity.
  - split; [intros _; destruct result; reflexivity |].
    split; [intros [H | [H | H]]; discriminate H | discriminate].
  - split; [discriminate |]. split; [intros [H | [H | H]]; discriminate H |].
    intros _. exists e. split; [reflexivity |]. split; [reflexivity |].
    unfold or_else. cbn.
    destruct (Z.eqb (getErrorCodeFromError e) 0); reflexivity.
Qed.

Lemma filter_absent (listener : nat) (registered : list nat) :
  ~ In listener registered ->
  List.filter (fun cb => negb (Nat.eqb cb listener)) registered = registered.
Proof.
  induction registered as [| cb registered IH]; intros Hnot; [reflexivity |].
  cbn. destruct (Nat.eqb_spec cb listener) as [-> | Hne].
  - exfalso. apply Hnot. by left.
  - cbn. f_equal. apply IH. intros Hin. apply Hnot. by right.
Qed.

(** X25. Registering a listener and removing it again leaves the listeners
    of the event as they were when it was not registered before (an event
    without an entry ends up with an empty one); [off] removes every
    registration of the listener for the event; other events are
    untouched. *)
Theorem on_then_off (name : string) (listener : nat) (listeners : gmap string (list nat)) :
  (forall registered : list nat,
     listeners !! name = Some registered -> ~ In listener registered ->
     off name listener (on name listener listeners) = listeners) /\
  (listeners !! name = None ->
     off name listener (on name listener listeners) = <[name := []]> listeners) /\
  (forall registered : list nat,
     off name listener listeners !! name = Some registered -> ~ In listener registered) /\
  (forall other : string,
     other <> name ->
     off name listener (on name listener listeners) !! other = listeners !! other).
Proof.
  repeat split.
  - intros registered Hin Hnot. unfold on, off. rewrite Hin, lookup_insert_eq.
    rewrite insert_insert_eq, List.filter_app, (filter_absent _ _ Hnot). cbn.
    rewrite Nat.eqb_refl. cbn. rewrite app_nil_r. by apply insert_id.
  - intros Hnone. unfold on, off. rewrite Hnone, lookup_insert_eq.
    rewrite insert_insert_eq. cbn. rewrite Nat.eqb_refl. reflexivity.
  - intros registered. unfold off.
    destruct (listeners !! name) as [old |] eqn:Hold.
    + rewrite lookup_insert_eq. intros H. inversion H; subst registered.
      intros Hin. apply List.filter_In in Hin as [_ Hin].
      rewrite Nat.eqb_refl in Hin. discriminate Hin.
    + rewrite Hold. discriminate.
  - intros other Hne. unfold on, off.
    destruct (listeners !! name) as [old |] eqn:Hold;
      rewrite lookup_insert_eq, insert_insert_eq; by apply lookup_insert_ne.
Qed.

End MoreClientFacts.

(** ** Strings, URLs and paths *)

Section StringFacts.

Lemma length_app (a b : string) :
  String.length (a +:+ b) = (String.length a + String.length b)%nat.
Proof. induction a as [| c a IH]; simpl; [reflexivity | by f_equal]. Qed.

Lemma append_assoc (a b c : string) : (a +:+ b) +:+ c = a +:+ b +:+ c.
Proof.
  induction a as [| d a IH]; [reflexivity |].
  change (String d ((a +:+ b) +:+ c) = String d (a +:+ b +:+ c)). by rewrite IH.
Qed.

Lemma lastIndexOf_range (c : ascii) (s : string) :
  -1 <= lastIndexOf c s < Z.of_nat (String.length s).
Proof.
  induction s as [| d s IH]; cbn [lastIndexOf String.length]; [lia |].
  destruct (Z.leb_spec 0 (lastIndexOf c s)); [lia |].
  destruct (Ascii.eqb d c); lia.
Qed.

Lemma lastIndexOf_cons_none (c d : ascii) (s : string) :
  lastIndexOf c (String d s) = -1 <-> Ascii.eqb d c = false /\ lastIndexOf c s = -1.
Proof.
  pose proof (lastIndexOf_range c s) as Hrange. cbn [lastIndexOf].
  destruct (Z.leb_spec 0 (lastIndexOf c s)) as [Hle | Hlt].
  - split; [lia | intros [_ Heq]; lia].
  - destruct (Ascii.eqb d c); split.
    + lia.
    + intros [Hd _]. discriminate Hd.
    + intros _. split; [reflexivity | lia].
    + reflexivity.
Qed.

(** The last occurrence of [c] in [before c after], when [after] has none. *)
Lemma lastIndexOf_last (c : ascii) (before after : string) :
  lastIndexOf c after = -1 ->
  lastIndexOf c (before +:+ String c after) = Z.of_nat (String.length before).
Proof.
  intros Hnone. induction before as [| d before IH].
  - change ("" +:+ String c after) with (String c after).
    cbn [lastIndexOf]. rewrite Hnone, Ascii.eqb_refl. reflexivity.
  - change (String d before +:+ String c after) with (String d (before +:+ String c after)).
    cbn [lastIndexOf String.length]. rewrite IH.
    destruct (Z.leb_spec 0 (Z.of_nat (String.length before))); lia.
Qed.

Lemma lastIndexOf_app_none (c : ascii) (a b : string) :
  lastIndexOf c a = -1 -> lastIndexOf c b = -1 -> lastIndexOf c (a +:+ b) = -1.
Proof.
  intros Ha Hb. induction a as [| d a IH]; [exact Hb |].
  apply lastIndexOf_cons_none in Ha as [Hd Ha].
  change (String d a +:+ b) with (String d (a +:+ b)).
  apply lastIndexOf_cons_none. split; [exact Hd | by apply IH].
Qed.

Lemma substring_whole (s : string) : String.substring 0 (String.length s) s = s.
Proof. induction s as [| c s IH]; simpl; [reflexivity | by f_equal]. Qed.

Lemma substring_left (a b : string) : String.substring 0 (String.length a) (a +:+ b) = a.
Proof.
  induction a as [| c a IH]; simpl; [by destruct b | by f_equal].
Qed.

Lemma substring_right (a b : string) (n : nat) :
  String.substring (String.length a) n (a +:+ b) = String.substring 0 n b.
Proof. induction a as [| c a IH]; simpl; [reflexivity | exact IH]. Qed.

Lemma substring_nothing (s : string) : String.substring 0 0 s = "".
Proof. by destruct s. Qed.

(** X26. For a directory that is not empty and a file name without a slash,
    [getPathDirectoryName] and [getPathBasename] of [directory/name] are the
    directory and the name. *)
Theorem directory_and_basename (directory name : string) :
  directory <> "" ->
  lastIndexOf "/" name = -1 ->
  getPathDirectoryName (directory +:+ "/" +:+ name) = directory /\
  getPathBasename (directory +:+ "/" +:+ name) = name.
Proof.
  intros Hdir Hname.
  assert (Hlen : (0 < String.length directory)%nat) by (destruct directory; [done | cbn; lia]).
  assert (Hlast : lastIndexOf "/" (directory +:+ "/" +:+ name)
                  = Z.of_nat (String.length directory)).
  { change (directory +:+ "/" +:+ name) with (directory +:+ String "/" name).
    by apply lastIndexOf_last. }
  assert (Htotal : String.length (directory +:+ "/" +:+ name)
                   = (String.length directory + S (String.length name))%nat).
  { rewrite length_app. reflexivity. }
  unfold getPathDirectoryName, getPathBasename, js_substring_from, js_substring, or_number.
  rewrite Hlast, Htotal. split.
  - destruct (Z.eqb_spec (Z.of_nat (String.length directory)) 0) as [H0 | _]; [lia |].
    replace (Z.to_nat (Z.min (Z.max 0 (Z.min 0 _)) _)) with 0%nat by lia.
    match goal with |- String.substring 0 (Z.to_nat ?n) _ = _ =>
      replace (Z.to_nat n) with (String.length directory) by lia end.
    apply substring_left.
  - destruct (Z.eqb_spec (Z.of_nat (String.length directory) + 1) 0) as [H0 | _]; [lia |].
    match goal with |- String.substring (Z.to_nat ?a) (Z.to_nat ?n) _ = _ =>
      replace (Z.to_nat a) with (String.length (directory +:+ "/")) by (rewrite length_app; cbn; lia);
      replace (Z.to_nat n) with (String.length name) by lia end.
    rewrite <- (append_assoc directory "/" name).
    rewrite substring_right. apply substring_whole.
Qed.

(** A demo in a folder. *)
Lemma directory_and_basename_witness :
  getPathDirectoryName "/home/user/demos/match.dem" = "/home/user/demos" /\
  getPathBasename "/home/user/demos/match.dem" = "match.dem".
Proof.
  apply (directory_and_basename "/home/user/demos" "match.dem"); [discriminate | reflexivity].
Defined.

(** X27. For a path written with backslashes only, [getPathBasename] is the
    part after the last backslash, and [getPathDirectoryName] is empty. *)
Theorem backslash_paths (directory name : string) :
  lastIndexOf "/" directory = -1 ->
  lastIndexOf "/" name = -1 ->
  lastIndexOf "\" name = -1 ->
  getPathBasename (directory +:+ "\" +:+ name) = name /\
  getPathDirectoryName (directory +:+ "\" +:+ name) = "".
Proof.
  intros Hdir Hname Hback.
  assert (Hslash : lastIndexOf "/" (directory +:+ "\" +:+ name) = -1).
  { apply lastIndexOf_app_none; [exact Hdir |].
    change ("\" +:+ name) with (String "\" name).
    apply lastIndexOf_cons_none. split; [reflexivity | exact Hname]. }
  assert (Hlast : lastIndexOf "\" (directory +:+ "\" +:+ name)
                  = Z.of_nat (String.length directory)).
  { change (directory +:+ "\" +:+ name) with (directory +:+ String "\" name).
    by apply lastIndexOf_last. }
  assert (Htotal : String.length (directory +:+ "\" +:+ name)
                   = (String.length directory + S (String.length name))%nat).
  { rewrite length_app. reflexivity. }
  unfold getPathDirectoryName, getPathBasename, js_substring_from, js_substring, or_number.
  rewrite Hslash, Hlast, Htotal. change (-1 + 1 =? 0) with true.
  cbn [Z.add Z.eqb Z.opp Z.pos_sub]. split.
  - match goal with |- String.substring (Z.to_nat ?a) (Z.to_nat ?n) _ = _ =>
      replace (Z.to_nat a) with (String.length (directory +:+ "\")) by (rewrite length_app; cbn; lia);
      replace (Z.to_nat n) with (String.length name) by lia end.
    rewrite <- (append_assoc directory "\" name).
    rewrite substring_right. apply substring_whole.
  - match goal with |- String.substring (Z.to_nat ?a) (Z.to_nat ?n) _ = _ =>
      replace (Z.to_nat a) with 0%nat by lia;
      replace (Z.to_nat n) with 0%nat by lia end.
    apply substring_nothing.
Qed.

(** A demo in a folder on Windows. *)
Lemma backslash_paths_witness :
  getPathBasename "C:\demos\match.dem" = "match.dem" /\
  getPathDirectoryName "C:\demos\match.dem" = "".
Proof.
  apply (backslash_paths "C:\demos" "match.dem"); reflexivity.
Defined.

End StringFacts.

(** ** The Steam URL *)

Section SteamUrlFacts.











(** Two URLs: for a Windows path with a start tick, and for a path of
    another platform without one. *)
Example buildSteamDemoUrl_samples :
  buildSteamDemoUrl true "C:/demos/match.dem" (Some 128) =
    "steam://run/730//+playdemo "
    +:+ String double_quote ("C:\demos\match.dem" +:+ String double_quote " +demo_gototick 128") /\
  buildSteamDemoUrl false "/home/me/match.dem" (Some 0) =
    "steam://run/730//+playdemo "
    +:+ String double_quote ("/home/me/match.dem" +:+ String double_quote "").
Proof. split; vm_compute; reflexivity. Qed.

End SteamUrlFacts.

(** ** The client on the wire *)

Section WireOnTheSample.

Existing Instance sample.

(** [send] on two pages: one whose network carries the sample server's 401
    for an anonymous call, and one that carries its 500 for a check-auth
    request without a body. *)
Lemma send_sees_the_server_witness :
  (status (response (route POST "echo" (anonymous None) sampleWorld).1) = 401 /\
   (HybridApiClient_send {| name := "echo"; payload := None |} wiredBrowser).1
     = Threw (JsValue (JNum UnknownError))) /\
  (status (response (route POST "check-auth" (anonymous None) sampleWorld).1) = 500 /\
   exists e : Thrown,
     response (route POST "check-auth" (anonymous None) sampleWorld).1 = caught e /\
     field "error" (json (response (route POST "check-auth" (anonymous None) sampleWorld).1))
       = Some (JNum (getErrorCodeFromError e)) /\
     (HybridApiClient_send {| name := "check-auth"; payload := None |} failingBrowser).1
       = Threw (JsValue (JNum (if getErrorCodeFromError e =? 0 then UnknownError
                               else getErrorCodeFromError e)))).
Proof.
  split.
  - split; [reflexivity |].
    refine (proj1 (proj2 (send_sees_the_server {| name := "echo"; payload := None |}
              wiredBrowser "Unauthorized" POST "echo" (anonymous None) sampleWorld _)) _).
    + intros call. reflexivity.
    + left. reflexivity.
  - split; [reflexivity |].
    refine (proj2 (proj2 (send_sees_the_server {| name := "check-auth"; payload := None |}
              failingBrowser "Internal Server Error" POST "check-auth" (anonymous None)
              sampleWorld _)) _).
    + intros call. reflexivity.
    + reflexivity.
Defined.

End WireOnTheSample.

(** ** Watching a demo *)

Section WatchDemoFacts.

Context `{W : WatchDemoDeps}.

(** X29. When [useSteamUrl] is left out the handler takes the Steam branch,
    as when it is [true]; but when that branch fails, the error payload is
    returned as the result if [useSteamUrl] was left out, and thrown only if
    it was given as [true]. *)
Theorem watchDemo_failure_thrown_only_on_request (payload : WatchDemoPayload)
    (w w1 : World) (error : Thrown) :
  watchViaSteam payload w = (Threw error, w1) ->
  (useSteamUrl payload = None ->
     watchDemoHandler payload w =
       (errorPayload ← handleWatchDemoError error (demoPath payload) "Error watching demo";
        mret (Some errorPayload)) w1) /\
  (useSteamUrl payload = Some true ->
     watchDemoHandler payload w =
       (errorPayload ← handleWatchDemoError error (demoPath payload) "Error watching demo";
        throw (JsValue errorPayload)) w1).
Proof.
  intros Hfail. split; intros Huse; unfold watchDemoHandler, try_catch;
    rewrite Huse; cbv beta iota delta [default from_option id]; rewrite Hfail; reflexivity.
Qed.

End WatchDemoFacts.

Section WatchDemoOnTheSample.

Existing Instance brokenDemo.

(** A demo whose game cannot be detected, with and without [useSteamUrl]. *)
Lemma watchDemo_failure_thrown_only_on_request_witness :
  let asked := {| demoPath := "/demos/match.dem"; focusSteamId := None; startTick := None;
                  additionalArguments := None; useSteamUrl := Some true |} in
  let silent := {| demoPath := "/demos/match.dem"; focusSteamId := None; startTick := None;
                   additionalArguments := None; useSteamUrl := None |} in
  watchDemoHandler silent sampleWorld =
    (Returned (Some (JObj [("demoPath", JStr "/demos/match.dem");
                           ("message", JStr "Error watching demo")])), sampleWorld) /\
  watchDemoHandler asked sampleWorld =
    (Threw (JsValue (JObj [("demoPath", JStr "/demos/match.dem");
                           ("message", JStr "Error watching demo")])), sampleWorld).
Proof.
  intros asked silent. split.
  - exact (proj1 (watchDemo_failure_thrown_only_on_request silent sampleWorld sampleWorld
                    (JsError "Unsupported demo") eq_refl) eq_refl).
  - exact (proj2 (watchDemo_failure_thrown_only_on_request asked sampleWorld sampleWorld
                    (JsError "Unsupported demo") eq_refl) eq_refl).
Defined.

End WatchDemoOnTheSample.

(** ** Logging out through the dispatcher *)

Section LogoutDispatchFacts.

Context `{D : Deployment}.

Import SessionStore.

(** X30. A logout dispatched with the token of a live session, in the header
    and in the payload, is answered 200 even when the database is not
    connected, and removes the session; any later call of a protected
    operation with that token is answered 401 "Invalid or expired
    session". *)
Theorem logout_dispatch_ends_session (h : Handler) (sid : string) (s : Session)
    (req : Request) (w : World) :
  rendererHandlers Logout = Some h ->
  implements LogoutPayload_json (fun _ : unit => None) h logoutHandler ->
  Logout ∉ publicHandlers ->
  x_session_id req = Some sid -> sid <> "" ->
  sessions w !! sid = Some s -> clock w (clockReads w) <= expiresAt s ->
  exists w1 : World,
    executeHandler Logout (Some (LogoutPayload_json {| logout_sessionId := sid |})) req w
      = (replied (succeeded None) [Some (LogoutPayload_json {| logout_sessionId := sid |})], w1) /\
    sessions w1 = delete sid (sessions w) /\
    forall (operation : string) (hop : Handler) (payload : option JValue),
      rendererHandlers operation = Some hop ->
      operation ∉ publicHandlers ->
      executeHandler operation payload req w1
        = (replied (unauthorized "Invalid or expired session") [], w1).
Proof.
  intros Hreg Himpl Hout Hsid Hne Hin Hnow.
  exists (with_sessions (delete sid) (tick w)). split; [| split; [reflexivity |]].
  - rewrite (executeHandler_passed Logout h _ req w (tick w) Hreg).
    + change (hasPayload (Some (LogoutPayload_json {| logout_sessionId := sid |}))) with true.
      cbv zeta iota. rewrite Himpl. unfold logoutHandler. cbn [logout_sessionId].
      rewrite (is_empty_false _ Hne). reflexivity.
    + eapply gates_admitted; [exact Hout | exact Hsid | exact Hne | exact Hin | exact Hnow |].
      left. apply handlersWithoutDatabase_spec. tauto.
  - intros operation hop payload Hop Hprot.
    unfold executeHandler, gates, authenticationGate. rewrite Hop.
    rewrite bool_decide_eq_false_2 by exact Hprot.
    rewrite Hsid, (is_empty_false _ Hne). run.
    rewrite getSession_absent by (cbn; apply lookup_delete_eq). reflexivity.
Qed.

End LogoutDispatchFacts.

Section LogoutOnTheSample.

Existing Instance sample.

Lemma sample_logout_entry :
  implements LogoutPayload_json (fun _ : unit => None)
    (typed LogoutPayload_of_json (fun _ : unit => None) logoutHandler) logoutHandler.
Proof. intros p w. reflexivity. Qed.

(** ["admin"] logs out on the sample world, the database being down. *)
Lemma logout_dispatch_ends_session_witness :
  databaseConnected loggedIn = false /\
  exists w1 : World,
    executeHandler Logout (Some (LogoutPayload_json {| logout_sessionId := sampleToken |}))
        (withSession sampleToken None) loggedIn
      = (replied (succeeded None)
           [Some (LogoutPayload_json {| logout_sessionId := sampleToken |})], w1) /\
    sessions w1 = delete sampleToken (sessions loggedIn) /\
    forall (operation : string) (hop : Handler) (payload : option JValue),
      rendererHandlers operation = Some hop ->
      operation ∉ publicHandlers ->
      executeHandler operation payload (withSession sampleToken None) w1
        = (replied (unauthorized "Invalid or expired session") [], w1).
Proof.
  split; [reflexivity |].
  refine (logout_dispatch_ends_session _ sampleToken sampleSession
            (withSession sampleToken None) loggedIn eq_refl sample_logout_entry _ eq_refl _
            loggedIn_session loggedIn_live).
  - rewrite publicHandlers_spec. cbn. intros [H | [H | [H | H]]]; discriminate H.
  - discriminate.
Defined.

End LogoutOnTheSample.

(** ** The check-auth operation, as it is dispatched *)

Section CheckAuthDispatchFacts.

Context `{D : Deployment}.

(** X11. [checkAuthHandler] throws when it is called with no argument (or
    with [null]): destructuring the payload raises a [TypeError]. The
    dispatcher calls it so for every request whose payload is not a non-empty
    object, and answers 500. On any other value the handler returns: it
    reports [authenticated: true], with the name of the session's user,
    exactly when the [sessionId] of the payload is a non-empty string that
    names a stored session that has not expired, and
    [authenticated: false] without a user name otherwise; it touches no
    user, and a dispatch of such a payload is answered 200 with that
    report. *)
Theorem checkAuthHandler_reports (typeError : option JValue -> string)
    (payload : option JValue) (req : Request) (w : World) :
  rendererHandlers CheckAuth = Some (checkAuthHandler_call typeError) ->
  match payload with
  | None | Some JNull =>
      checkAuthHandler_call typeError payload w = (Threw (JsError (typeError payload)), w)
  | Some v =>
      exists (r : CheckAuthResponse) (w1 : World),
        checkAuthHandler_call typeError payload w
          = (Returned (Some (CheckAuthResponse_json r)), w1) /\
        (authenticated r = true <->
           exists (sid : string) (s : Session),
             field "sessionId" v = Some (JStr sid) /\ sid <> "" /\
             sessions w !! sid = Some s /\ clock w (clockReads w) <= expiresAt s) /\
        (forall (sid : string) (s : Session),
           authenticated r = true -> field "sessionId" v = Some (JStr sid) ->
           sessions w !! sid = Some s -> check_username r = Some (username s)) /\
        (authenticated r = false -> check_username r = None) /\
        users w1 = users w /\
        (hasPayload payload = true ->
           executeHandler CheckAuth payload req w
             = (replied (succeeded (Some (CheckAuthResponse_json r))) [payload], w1))
  end /\
  (hasPayload payload = false ->
     executeHandler CheckAuth payload req w
       = (replied (caught (JsError (typeError None))) [None], w) /\
     status (response (executeHandler CheckAuth payload req w).1) = 500).
Proof.
  intros Hreg.
  assert (Hpub : CheckAuth ∈ publicHandlers) by (apply publicHandlers_spec; tauto).
  pose proof (executeHandler_passed CheckAuth _ payload req w w Hreg
                (gates_public CheckAuth req w Hpub)) as Hexec.
  assert (Hno : forall v : JValue,
    (forall sid : string, field "sessionId" v <> Some (JStr sid)) ->
    checkAuthHandler_call typeError (Some v) w
      = (Returned (Some (CheckAuthResponse_json
                           {| authenticated := false; check_username := None |})), w) ->
    exists (r : CheckAuthResponse) (w1 : World),
      checkAuthHandler_call typeError (Some v) w
        = (Returned (Some (CheckAuthResponse_json r)), w1) /\
      (authenticated r = true <->
         exists (sid : string) (s : Session),
           field "sessionId" v = Some (JStr sid) /\ sid <> "" /\
           sessions w !! sid = Some s /\ clock w (clockReads w) <= expiresAt s) /\
      (forall (sid : string) (s : Session),
         authenticated r = true -> field "sessionId" v = Some (JStr sid) ->
         sessions w !! sid = Some s -> check_username r = Some (username s)) /\
      (authenticated r = false -> check_username r = None) /\
      users w1 = users w /\
      (hasPayload payload = true -> payload = Some v ->
         executeHandler CheckAuth payload req w
           = (replied (succeeded (Some (CheckAuthResponse_json r))) [payload], w1))).
  { intros v Hfield Hcall. eexists _, _. split; [exact Hcall |]. cbn.
    split; [split; [discriminate | intros (sid & s & Hsid & _); by destruct (Hfield sid)] |].
    split; [discriminate |]. split; [reflexivity |]. split; [reflexivity |].
    intros Hhas Hv. rewrite Hexec, Hhas. cbv zeta iota. rewrite Hv, Hcall. reflexivity. }
  split.
  - destruct payload as [v |]; [| reflexivity].
    destruct v as [| b | n | text | items | fields]; try reflexivity.
    + destruct (Hno (JBool b)) as (r & w1 & H1 & H2 & H3 & H4 & H5 & H6);
        [discriminate | reflexivity |]. exists r, w1. eauto 10.
    + destruct (Hno (JNum n)) as (r & w1 & H1 & H2 & H3 & H4 & H5 & H6);
        [discriminate | reflexivity |]. exists r, w1. eauto 10.
    + destruct (Hno (JStr text)) as (r & w1 & H1 & H2 & H3 & H4 & H5 & H6);
        [discriminate | reflexivity |]. exists r, w1. eauto 10.
    + destruct (Hno (JArr items)) as (r & w1 & H1 & H2 & H3 & H4 & H5 & H6);
        [discriminate | reflexivity |]. exists r, w1. eauto 10.
    + assert (Hcases : (exists sid : string, field "sessionId" (JObj fields) = Some (JStr sid)) \/
                       (forall sid : string, field "sessionId" (JObj fields) <> Some (JStr sid))).
      { destruct (field "sessionId" (JObj fields)) as [[| | | sid | |] |];
          solve [right; discriminate | left; by exists sid]. }
      destruct Hcases as [[sid Hfield] | Hfield].
      2:{ destruct (Hno (JObj fields)) as (r & w1 & H1 & H2 & H3 & H4 & H5 & H6);
            [exact Hfield | |].
          - unfold checkAuthHandler_call.
            destruct (field "sessionId" (JObj fields)) as [[| | | sid | |] |];
              try reflexivity.
            by destruct (Hfield sid).
          - exists r, w1. eauto 10. }
      destruct (checkAuthHandler_typed {| check_sessionId := sid |} w)
        as (r & w1 & Hrun & Hiff & Hname & Hnone & Husers).
      cbn [check_sessionId] in Hiff, Hname.
      assert (Hcall : checkAuthHandler_call typeError (Some (JObj fields)) w
                      = (Returned (Some (CheckAuthResponse_json r)), w1)).
      { unfold checkAuthHandler_call. rewrite Hfield. run. rewrite Hrun. reflexivity. }
      exists r, w1. split; [exact Hcall |].
      split.
      { rewrite Hiff. split.
        - intros (Hne & s & Hin & Hnow). exists sid, s. done.
        - intros (sid' & s & Heq & Hne & Hin & Hnow).
          rewrite Hfield in Heq. injection Heq as <-.
          split; [exact Hne | by exists s]. }
      split.
      { intros sid' s Hauth Heq Hin. rewrite Hfield in Heq. injection Heq as <-.
        by apply Hname. }
      split; [exact Hnone |]. split; [exact Husers |].
      intros Hhas. rewrite Hexec, Hhas. cbv zeta iota. rewrite Hcall. reflexivity.
  - intros Hhas.
    assert (Hrun : executeHandler CheckAuth payload req w
                   = (replied (caught (JsError (typeError None))) [None], w)).
    { rewrite Hexec, Hhas. reflexivity. }
    split; [exact Hrun |]. rewrite Hrun. reflexivity.
Qed.

End CheckAuthDispatchFacts.

Section CheckAuthOnTheSample.

Existing Instance sample.

(** Two dispatches of check-auth on the sample deployment: one without a
    body, answered 500, and one that carries the session id of ["admin"],
    answered 200 with [authenticated: true]. *)
Lemma checkAuthHandler_reports_witness :
  rendererHandlers CheckAuth = Some (checkAuthHandler_call destructuringError) /\
  hasPayload None = false /\
  (executeHandler CheckAuth None (anonymous None) sampleWorld
     = (replied (caught (JsError
          "Cannot destructure property 'sessionId' of 'payload' as it is undefined."))
          [None], sampleWorld) /\
   status (response (executeHandler CheckAuth None (anonymous None) sampleWorld).1) = 500) /\
  exists (r : CheckAuthResponse) (w1 : World),
    executeHandler CheckAuth (Some (JObj [("sessionId", JStr sampleToken)]))
        (anonymous None) loggedIn
      = (replied (succeeded (Some (CheckAuthResponse_json r)))
           [Some (JObj [("sessionId", JStr sampleToken)])], w1) /\
    authenticated r = true /\
    check_username r = Some "admin".
Proof.
  assert (Hreg : rendererHandlers CheckAuth = Some (checkAuthHandler_call destructuringError))
    by reflexivity.
  split; [exact Hreg |]. split; [reflexivity |]. split.
  - apply (checkAuthHandler_reports destructuringError None (anonymous None) sampleWorld
             Hreg).
    reflexivity.
  - destruct (checkAuthHandler_reports destructuringError
                (Some (JObj [("sessionId", JStr sampleToken)])) (anonymous None) loggedIn
                Hreg) as [(r & w1 & _ & Hiff & Hname & _ & _ & Hexec) _].
    assert (Hauth : authenticated r = true).
    { apply Hiff. exists sampleToken, sampleSession.
      split; [reflexivity |]. split; [discriminate |].
      split; [exact loggedIn_session | exact loggedIn_live]. }
    exists r, w1. split; [apply Hexec; reflexivity |]. split; [exact Hauth |].
    exact (Hname sampleToken sampleSession Hauth eq_refl loggedIn_session).
Defined.

End CheckAuthOnTheSample.
